(** * Smart scheduler: scheduling and insights engine

    A shallow embedding of [modules/intelligent_scheduler.py] and of the
    parts of [modules/analytics.py] and [database/db_connector.py] it
    relies on, followed by the properties of the specification that
    concern them, and by further properties of the same modules and of
    the break menu of [main_cli.py].

    Conventions of the embedding.
    - A Python [dict] whose keys decide the control flow (a task, a
      prediction, the insights) is a [gmap string pyval]; subscripting a
      missing key raises [KeyError], [.get] does not.
    - A call that may raise returns an [outcome]; [try/except Exception]
      is [catch_all], [except mysql.connector.Error] is [catch_db].
    - [print] calls are not modelled: they do not influence any result.
      The reminders are the exception: what they print is all they do,
      so they return the list of notifications sent.
    - Python [float] and [Decimal] values are modelled by the rational
      number they stand for ([PNum]); [round(x, 1)] is rounding to one
      decimal with ties to even, as Python does on an exactly
      represented value.
    - A naive [datetime] is the number of microseconds elapsed since the
      midnight that opens proleptic ordinal day 0; its fields are read
      back by division. *)

From Stdlib Require Import ZArith QArith Qround Qminmax Lia Lqa List Ascii String.
From stdpp Require Import base option strings pretty gmap.
Import ListNotations.

Local Open Scope Z_scope.
Set Warnings "-register-all".

(** ** Exceptions and outcomes *)

Inductive exn : Type :=
| KeyError (key : string)
| TypeError
| ValueError
| IndexError
| OverflowError
| AttributeError
| DbError            (* mysql.connector.Error *)
| OtherError.

Inductive outcome (A : Type) : Type :=
| Ok (a : A)
| Raise (e : exn).
Arguments Ok {A} a.
Arguments Raise {A} e.

#[global] Instance outcome_ret : MRet outcome := fun A a => Ok a.
#[global] Instance outcome_bind : MBind outcome := fun A B k m =>
  match m with
  | Ok a => k a
  | Raise e => Raise e
  end.

Definition is_db_error (e : exn) : bool :=
  match e with DbError => true | _ => false end.

(** [try: body  except Exception: return fallback]. *)
Definition catch_all {A} (body : outcome A) (fallback : A) : A :=
  match body with
  | Ok a => a
  | Raise _ => fallback
  end.

(** [try: body  except mysql.connector.Error: return fallback]; any
    other exception keeps propagating. *)
Definition catch_db {A} (body : outcome A) (fallback : A) : outcome A :=
  match body with
  | Ok a => Ok a
  | Raise e => if is_db_error e then Ok fallback else Raise e
  end.

(** ** Python values *)

Inductive pyval : Type :=
| PNone
| PInt (z : Z)
| PNum (q : Q)          (* float or Decimal *)
| PStr (s : string)
| PList (l : list pyval).

Abbreviation dict := (gmap string pyval).

(** [d[key]] *)
Definition subscript (d : dict) (key : string) : outcome pyval :=
  match d !! key with
  | Some v => Ok v
  | None => Raise (KeyError key)
  end.

(** [d.get(key)] and [d.get(key, default)] *)
Definition get (d : dict) (key : string) : pyval := default PNone (d !! key).
Definition get_or (d : dict) (key : string) (dflt : pyval) : pyval :=
  default dflt (d !! key).

(** Truth value of an object, as [if x:] tests it. *)
Definition truthy (v : pyval) : bool :=
  match v with
  | PNone => false
  | PInt z => negb (z =? 0)
  | PNum q => negb (Qeq_bool q 0)
  | PStr s => negb (String.eqb s "")
  | PList l => match l with [] => false | _ => true end
  end.

(** ** Rounding *)

(** Nearest integer, ties to even. *)
Definition round_half_even (x : Q) : Z :=
  let f := Qfloor x in
  let r := (x - inject_Z f)%Q in
  match (r ?= 1 # 2)%Q with
  | Lt => f
  | Gt => f + 1
  | Eq => if Z.even f then f else f + 1
  end.

(** [round(x, 1)] *)
Definition round1 (x : Q) : Q :=
  Qred (inject_Z (round_half_even (x * 10)) / 10).

(** [round(x, 2)] *)
Definition round2 (x : Q) : Q :=
  Qred (inject_Z (round_half_even (x * 100)) / 100).

(** ** Naive datetimes *)

Record datetime : Type := mk_datetime { dt_us : Z }.

Definition us_per_minute : Z := 60 * 1000000.
Definition us_per_hour : Z := 60 * us_per_minute.
Definition us_per_day : Z := 24 * us_per_hour.

(** [date.max.toordinal()], the last day of year 9999. *)
Definition max_ordinal : Z := 3652059.

Definition dt_ordinal (t : datetime) : Z := dt_us t / us_per_day.
Definition dt_hour (t : datetime) : Z := (dt_us t mod us_per_day) / us_per_hour.
Definition dt_minute (t : datetime) : Z := (dt_us t mod us_per_hour) / us_per_minute.

Definition datetime_of (ordinal hour minute : Z) : datetime :=
  mk_datetime (ordinal * us_per_day + hour * us_per_hour + minute * us_per_minute).

Definition dt_valid (t : datetime) : bool :=
  (1 <=? dt_ordinal t) && (dt_ordinal t <=? max_ordinal).

(** [t + timedelta(microseconds=us)]: [OverflowError] outside years
    1..9999. *)
Definition dt_add (t : datetime) (us : Z) : outcome datetime :=
  let r := mk_datetime (dt_us t + us) in
  if dt_valid r then Ok r else Raise OverflowError.

(** [t.replace(hour=h, minute=0, second=0, microsecond=0)]:
    [ValueError] unless [h] is in 0..23. *)
Definition dt_replace_hour (t : datetime) (h : Z) : outcome datetime :=
  if (0 <=? h) && (h <=? 23)
  then Ok (mk_datetime (dt_ordinal t * us_per_day + h * us_per_hour))
  else Raise ValueError.

Definition dt_ltb (a b : datetime) : bool := dt_us a <? dt_us b.

(** Length in microseconds of [timedelta(minutes=d)]; a fractional
    number of microseconds is rounded to the nearest, ties to even. *)
Definition timedelta_minutes (d : pyval) : outcome Z :=
  match d with
  | PInt z => Ok (z * us_per_minute)
  | PNum q => Ok (round_half_even (q * inject_Z us_per_minute))
  | _ => Raise TypeError
  end.

(** Comparison [v <= n] of an object with an int literal; [None], a
    string or a list on the left raises [TypeError]. *)
Definition py_le (v : pyval) (n : Z) : outcome bool :=
  match v with
  | PInt z => Ok (z <=? n)
  | PNum q => Ok (Qle_bool q (inject_Z n))
  | _ => Raise TypeError
  end.

(** ** IntelligentScheduler: placement of tasks *)

(** The dict literal built for each placed task. *)
Record scheduled_task : Type := mk_scheduled_task {
  task_name : pyval;
  start_time : datetime;
  duration : pyval;
  confidence : pyval;
  category : pyval;
  project : pyval
}.

(** [_calculate_break_duration] *)
Definition calculate_break_duration (task_duration : pyval) : outcome Z :=
  le30 ← py_le task_duration 30;
  if le30 : bool then Ok 5 else
  le60 ← py_le task_duration 60;
  if le60 : bool then Ok 10 else
  le120 ← py_le task_duration 120;
  if le120 : bool then Ok 15 else Ok 20.

(** [task['start_time'] + timedelta(minutes=task['duration'])] *)
Definition task_end (task : scheduled_task) : outcome datetime :=
  d ← timedelta_minutes (duration task);
  dt_add (start_time task) d.

(** The conflict scan that ends [_find_optimal_start_time]. *)
Fixpoint resolve_conflicts (existing_tasks : list scheduled_task)
    (start : datetime) : outcome datetime :=
  match existing_tasks with
  | [] => Ok start
  | task :: rest =>
      e ← task_end task;
      start' ← (if dt_ltb start e then dt_add e (15 * us_per_minute)
                 else Ok start);
      resolve_conflicts rest start'
  end.

(** The first hour of the list, in list order, that is later than [h]:
    the [for ... if hour > start_time.hour ... break] loop. *)
Definition next_productive_hour (productive_hours : list Z) (h : Z) : option Z :=
  List.find (fun hour => h <? hour) productive_hours.

(** [productive_hours[0]] *)
Definition first_hour (productive_hours : list Z) : outcome Z :=
  match productive_hours with
  | h :: _ => Ok h
  | [] => Raise IndexError
  end.

(** [_find_optimal_start_time]; the [duration] argument is not used by
    the body. *)
Definition find_optimal_start_time (current_time : datetime) (duration : pyval)
    (productive_hours : list Z) (existing_tasks : list scheduled_task)
    : outcome datetime :=
  start ← (if existsb (Z.eqb (dt_hour current_time)) productive_hours
            then Ok current_time
            else match next_productive_hour productive_hours (dt_hour current_time) with
                 | Some hour => dt_replace_hour current_time hour
                 | None =>
                     tomorrow ← dt_add current_time us_per_day;
                     h0 ← first_hour productive_hours;
                     dt_replace_hour tomorrow h0
                 end);
  resolve_conflicts existing_tasks start.

(** A duration estimator, as [create_smart_schedule] calls it:
    [self.predict_task_duration(name, description, category_id)]. *)
Abbreviation predictor := (pyval -> pyval -> pyval -> outcome dict).

(** One iteration of the [for i, task in enumerate(tasks)] loop of
    [create_smart_schedule]: the dict appended to [scheduled_tasks] and
    the new [current_time]. *)
Definition place_task (predict : predictor) (productive_hours : list Z)
    (i : nat) (task : dict) (scheduled_tasks : list scheduled_task)
    (current_time : datetime) : outcome (scheduled_task * datetime) :=
  name ← subscript task "name";
  prediction ← predict name (get task "description") (get task "category_id");
  duration ← subscript prediction "predicted_duration";
  start ← find_optimal_start_time current_time duration
            productive_hours scheduled_tasks;
  start ← (if (0 <? i)%nat
            then break_duration ← calculate_break_duration duration;
                 dt_add start (break_duration * us_per_minute)
            else Ok start);
  conf ← subscript prediction "confidence";
  let scheduled :=
    {| task_name := name;
       start_time := start;
       duration := duration;
       confidence := conf;
       category := get_or task "category_name" (PStr "Unknown");
       project := get_or task "project_name" (PStr "No Project") |} in
  d ← timedelta_minutes duration;
  current_time' ← dt_add start d;
  Ok (scheduled, current_time').

(** The loop itself; [i] is the index of the head of [tasks]. *)
Fixpoint schedule_loop (predict : predictor) (productive_hours : list Z)
    (i : nat) (tasks : list dict) (scheduled_tasks : list scheduled_task)
    (current_time : datetime) : outcome (list scheduled_task) :=
  match tasks with
  | [] => Ok scheduled_tasks
  | task :: rest =>
      step ← place_task predict productive_hours i task
               scheduled_tasks current_time;
      schedule_loop predict productive_hours (S i) rest
        (scheduled_tasks ++ [step.1]) step.2
  end.

(** [insights.get('most_productive_hours', [9, 10, 11, 14, 15, 16])]. The
    hours are used as ints; a stored value that is not a list of ints is
    not interpreted and counts as a [TypeError]. Every exception ends in
    the same handler, so raising it before the loop rather than at the
    first use changes no result. *)
Definition default_productive_hours : list Z := [9; 10; 11; 14; 15; 16].

Fixpoint int_list (l : list pyval) : option (list Z) :=
  match l with
  | [] => Some []
  | PInt z :: rest => cons z <$> int_list rest
  | _ => None
  end.

Definition productive_hours_of (insights : dict) : outcome (list Z) :=
  match insights !! "most_productive_hours" with
  | None => Ok default_productive_hours
  | Some (PList l) =>
      match int_list l with
      | Some hours => Ok hours
      | None => Raise TypeError
      end
  | Some _ => Raise TypeError
  end.

(** [create_smart_schedule] over the collaborators it calls: the clock
    ([datetime.now()]), [self.analytics.get_productivity_insights] and
    [self.predict_task_duration]. *)
Definition create_smart_schedule_with (now : datetime)
    (get_insights : outcome dict) (predict : predictor)
    (tasks : list dict) : list scheduled_task :=
  catch_all
    (insights ← get_insights;
     productive_hours ← productive_hours_of insights;
     schedule_loop predict productive_hours 0 tasks [] now)
    [].

(** ** The database, as the modules see it *)

(** One row of the similar-tasks query: [AVG(duration_minutes)] and
    [COUNT( * )] per completed task, with its labels. *)
Record similar_task : Type := mk_similar_task {
  st_task_name : pyval;
  st_category_name : pyval;
  avg_duration : Q;
  completion_count : Z;
  st_project_name : pyval
}.

(** Which filter [calculate_average_time] appends to its query. *)
Inductive avg_filter : Type :=
| NoFilter
| ByCategory (category_id : pyval)
| ByTaskType (task_type : pyval).

(** What each query yields when the cursor runs it: its rows, or the
    exception [cursor.execute] raises. [fetchone] results are options;
    a column that the code reads alone stands for its row. *)
Record database : Type := mk_database {
  (* queries of IntelligentScheduler, run through execute_query *)
  category_name_rows : pyval -> outcome (list pyval);
  category_average_rows : pyval -> Z -> outcome (list pyval);
  (* queries of Analytics, run on its own cursor *)
  similar_tasks_rows : Z -> pyval -> option pyval -> outcome (list similar_task);
  average_time_row : Z -> avg_filter -> outcome (option pyval);
  recent_activity_row : Z -> outcome (option pyval);
  time_analysis_row : Z -> outcome (option Z);
  avg_session_row : Z -> outcome (option pyval);
  completion_row : Z -> outcome (option (Z * Z));
  top_categories_rows : Z -> outcome pyval;
  project_breakdown_rows : Z -> outcome pyval
}.

(** [DatabaseConnector.execute_query] for a SELECT: [None] when no
    connection can be had or when MySQL reports an error, the rows
    otherwise. *)
Definition execute_query {A} (connected : bool) (rows : outcome A)
    : outcome (option A) :=
  if connected then catch_db (r ← rows; Ok (Some r)) None
  else Ok None.

(** ** Numeric helpers on Python values *)

Definition py_lt (v : pyval) (n : Z) : outcome bool :=
  match v with
  | PInt z => Ok (z <? n)
  | PNum q => Ok (negb (Qle_bool (inject_Z n) q))
  | _ => Raise TypeError
  end.

Definition py_gt (v : pyval) (n : Z) : outcome bool :=
  match v with
  | PInt z => Ok (n <? z)
  | PNum q => Ok (negb (Qle_bool q (inject_Z n)))
  | _ => Raise TypeError
  end.

(** [round(v, 1)] and [round(v, 2)]; an int is returned unchanged. *)
Definition py_round1 (v : pyval) : outcome pyval :=
  match v with
  | PInt z => Ok (PInt z)
  | PNum q => Ok (PNum (round1 q))
  | _ => Raise TypeError
  end.

Definition py_round2 (v : pyval) : outcome pyval :=
  match v with
  | PInt z => Ok (PInt z)
  | PNum q => Ok (PNum (round2 q))
  | _ => Raise TypeError
  end.

(** [v / 60], a true division. *)
Definition py_div60 (v : pyval) : outcome Q :=
  match v with
  | PInt z => Ok (inject_Z z / 60)%Q
  | PNum q => Ok (q / 60)%Q
  | _ => Raise TypeError
  end.

(** [v // 2] for a number. *)
Definition py_floordiv2 (v : pyval) : outcome pyval :=
  match v with
  | PInt z => Ok (PInt (z / 2))
  | PNum q => Ok (PNum (inject_Z (Qfloor (q / 2))))
  | _ => Raise TypeError
  end.

(** The rational a number stands for. *)
Definition num_of (v : pyval) : option Q :=
  match v with
  | PInt z => Some (inject_Z z)
  | PNum q => Some q
  | _ => None
  end.

(** [s.lower()] on ASCII letters. *)
Definition ascii_lower (c : ascii) : ascii :=
  let n := nat_of_ascii c in
  if ((65 <=? n) && (n <=? 90))%nat then ascii_of_nat (n + 32) else c.

Fixpoint string_lower (s : string) : string :=
  match s with
  | EmptyString => EmptyString
  | String c rest => String (ascii_lower c) (string_lower rest)
  end.

Definition py_lower (v : pyval) : outcome string :=
  match v with
  | PStr s => Ok (string_lower s)
  | _ => Raise AttributeError
  end.

(** ** IntelligentScheduler.predict_task_duration *)

Record scheduler : Type := mk_scheduler {
  user_id : Z;
  db : database;
  connected : bool;        (* the connector has, or can get, a connection *)
  has_analytics : bool;    (* [self.analytics] is not [None] *)
  now : datetime           (* what [datetime.now()] returns *)
}.

(** Default durations by category, in minutes. *)
Definition default_durations : gmap string Z :=
  <["coding" := 120]> (<["design" := 90]> (<["planning" := 60]>
  (<["testing" := 45]> (<["documentation" := 60]> (<["meeting" := 30]>
  (<["other" := 60]> ∅)))))).

Definition estimate_dict (hours : Q) : dict :=
  <["duration" := PNum hours]> (<["confidence" := PNum 70]>
  (<["method" := PStr "Historical Average"]> ∅)).

Definition fallback_estimate : dict :=
  <["duration" := PNum 1]> (<["confidence" := PNum 50]>
  (<["method" := PStr "Default Estimate"]> ∅)).

(** [default_durations.get(category_name.lower(), 60)] *)
Definition default_duration (category_name : pyval) : outcome pyval :=
  key ← py_lower category_name;
  Ok (PInt (default 60 (default_durations !! key))).

(** The category name [predict_task_duration] works with: the stored
    name when [category_id] is given and found, ["other"] otherwise. *)
Definition lookup_category_name (self : scheduler) (category_id : pyval)
    : outcome pyval :=
  if truthy category_id then
    cat_result ← execute_query (connected self)
                   (category_name_rows (db self) category_id);
    match cat_result with
    | Some (name :: _) => Ok name
    | _ => Ok (PStr "other")
    end
  else Ok (PStr "other").

(** The body of the [try] block of [predict_task_duration]. *)
Definition predict_task_duration_body (self : scheduler)
    (category_id : pyval) : outcome dict :=
  category_name ← lookup_category_name self category_id;
  result ← execute_query (connected self)
             (category_average_rows (db self) category_id (user_id self));
  duration ←
    match result with
    | Some (avg :: _) =>
        if truthy avg then Ok avg else default_duration category_name
    | _ => default_duration category_name
    end;
  hours ← py_div60 duration;
  Ok (estimate_dict (round1 hours)).

Definition predict_task_duration (self : scheduler)
    (task_name description category_id : pyval) : dict :=
  catch_all (predict_task_duration_body self category_id) fallback_estimate.

(** ** Analytics *)

(** [calculate_average_time(user_id, task_type, category_id)] *)
Definition calculate_average_time (d : database) (user : Z)
    (task_type category_id : pyval) : outcome pyval :=
  catch_db
    (let filter := if truthy category_id then ByCategory category_id
                   else if truthy task_type then ByTaskType task_type
                   else NoFilter in
     result ← average_time_row d user filter;
     match result with
     | Some avg => if truthy avg then Ok avg else Ok (PInt 0)
     | None => Raise TypeError          (* subscript of [None] *)
     end)
    (PInt 0).

(** An entry of [recommended_breaks]. *)
Record recommended_break : Type := mk_recommended_break {
  rb_time : pyval;
  rb_duration : Z;
  rb_type : string
}.

(** The dict returned by [get_smart_scheduling_suggestion]. *)
Record suggestion : Type := mk_suggestion {
  estimated_duration : pyval;
  confidence_level : string;
  recommended_breaks : list recommended_break;
  similar_tasks : list similar_task
}.

(** [sum(task['completion_count'] for task in similar_tasks)] *)
Definition total_weight (tasks : list similar_task) : Z :=
  foldr (fun task acc => completion_count task + acc) 0 tasks.

(** [sum(task['avg_duration'] * task['completion_count'] ...)] *)
Definition weighted_sum (tasks : list similar_task) : Q :=
  foldr (fun task acc =>
           (avg_duration task * inject_Z (completion_count task) + acc)%Q)
        0%Q tasks.

(** [weighted_avg] of [get_smart_scheduling_suggestion]. *)
Definition weighted_avg (tasks : list similar_task) : Q :=
  if 0 <? total_weight tasks
  then (weighted_sum tasks / inject_Z (total_weight tasks))%Q
  else 0%Q.

(** The breaks suggested from the estimated duration. *)
Definition suggest_breaks_for (estimated : pyval)
    : outcome (list recommended_break) :=
  over120 ← py_gt estimated 120;
  if over120 : bool then
    half ← py_floordiv2 estimated;
    Ok [ mk_recommended_break half 15 "mid-session break";
         mk_recommended_break estimated 30 "completion break" ]
  else
    over60 ← py_gt estimated 60;
    if over60 : bool then
      Ok [ mk_recommended_break estimated 15 "completion break" ]
    else Ok [].

Definition empty_suggestion : suggestion :=
  mk_suggestion (PInt 0) "low" [] [].

(** [get_smart_scheduling_suggestion(user_id, task_name, category_id)] *)
Definition get_smart_scheduling_suggestion (d : database) (user : Z)
    (task_name category_id : pyval) : outcome suggestion :=
  catch_db
    (found ← similar_tasks_rows d user task_name
                (if truthy category_id then Some category_id else None);
     partial ←
       match found with
       | _ :: _ =>
           Ok (mk_suggestion
                 (PNum (round2 (weighted_avg found)))
                 (if (3 <=? length found)%nat then "high" else "medium")
                 [] found)
       | [] =>
           general_avg ←
             (if truthy category_id
              then calculate_average_time d user PNone category_id
              else calculate_average_time d user PNone PNone);
           estimated ← py_round2 general_avg;
           Ok (mk_suggestion estimated "low" [] [])
       end;
     breaks ← suggest_breaks_for (estimated_duration partial);
     Ok (mk_suggestion (estimated_duration partial) (confidence_level partial)
           breaks (similar_tasks partial)))
    empty_suggestion.

(** The dict returned by [suggest_break]. *)
Record break_suggestion : Type := mk_break_suggestion {
  bs_type : string;
  bs_duration : Z;
  bs_message : string
}.

(** [suggest_break(user_id)] *)
Definition suggest_break (d : database) (user : Z)
    : outcome (option break_suggestion) :=
  catch_db
    (result ← recent_activity_row d user;
     recent_time ←
       match result with
       | Some sum => Ok (if truthy sum then sum else PInt 0)
       | None => Raise TypeError        (* subscript of [None] *)
       end;
     over240 ← py_gt recent_time 240;
     if over240 : bool then
       Ok (Some (mk_break_suggestion "extended_break" 30
         "You've been working for over 4 hours. Consider taking a 30-minute break."))
     else
     over120 ← py_gt recent_time 120;
     if over120 : bool then
       Ok (Some (mk_break_suggestion "short_break" 15
         "You've been working for over 2 hours. Consider taking a 15-minute break."))
     else
     over60 ← py_gt recent_time 60;
     if over60 : bool then
       Ok (Some (mk_break_suggestion "micro_break" 5
         "You've been working for over 1 hour. Consider taking a 5-minute micro-break."))
     else Ok None)
    None.

(** [f"{hour:02d}"] *)
Definition format_02d (hour : Z) : string :=
  if (0 <=? hour) && (hour <? 10) then "0" +:+ pretty hour else pretty hour.

Definition initial_insights : dict :=
  <["most_productive_time" := PNone]>
  (<["average_session_length" := PInt 0]>
  (<["completion_rate" := PInt 0]>
  (<["improvement_suggestions" := PList []]>
  (<["top_categories" := PList []]>
  (<["project_breakdown" := PList []]> ∅))))).

(** One query and the update of [insights] that follows it, inside the
    [try] of [get_productivity_insights]: on a MySQL error the handler
    returns [insights] as it stands. *)
Definition guarded (insights : dict) (step : outcome dict)
    (k : dict -> outcome dict) : outcome dict :=
  match step with
  | Ok insights' => k insights'
  | Raise e => if is_db_error e then Ok insights else Raise e
  end.

(** [(completed / total) * 100] rounded to one decimal. *)
Definition completion_percentage (completed total : Z) : Q :=
  round1 (inject_Z completed / inject_Z total * 100).

Definition set_most_productive_time (d : database) (user : Z)
    (insights : dict) : outcome dict :=
  result ← time_analysis_row d user;
  match result with
  | Some hour =>
      Ok (<["most_productive_time" := PStr (format_02d hour +:+ ":00")]> insights)
  | None => Ok insights
  end.

Definition set_average_session_length (d : database) (user : Z)
    (insights : dict) : outcome dict :=
  result ← avg_session_row d user;
  match result with
  | Some avg =>
      if truthy avg
      then rounded ← py_round1 avg;
           Ok (<["average_session_length" := rounded]> insights)
      else Ok insights
  | None => Ok insights
  end.

Definition set_completion_rate (d : database) (user : Z)
    (insights : dict) : outcome dict :=
  result ← completion_row d user;
  match result with
  | Some (completed, total) =>
      if 0 <? total
      then Ok (<["completion_rate" :=
                   PNum (completion_percentage completed total)]> insights)
      else Ok insights
  | None => Ok insights
  end.

Definition set_top_categories (d : database) (user : Z)
    (insights : dict) : outcome dict :=
  rows ← top_categories_rows d user;
  Ok (<["top_categories" := rows]> insights).

Definition set_project_breakdown (d : database) (user : Z)
    (insights : dict) : outcome dict :=
  rows ← project_breakdown_rows d user;
  Ok (<["project_breakdown" := rows]> insights).

Definition set_improvement_suggestions (insights : dict) : outcome dict :=
  session ← subscript insights "average_session_length";
  long ← py_gt session 120;
  rate ← subscript insights "completion_rate";
  low ← py_lt rate 70;
  best ← subscript insights "most_productive_time";
  let suggestions :=
    (if long : bool
     then [PStr "Consider breaking longer sessions into smaller chunks for better focus."]
     else []) ++
    (if low : bool
     then [PStr "Try setting more realistic deadlines to improve completion rates."]
     else []) ++
    (if truthy best then []
     else [PStr "Track your productivity patterns to identify your most productive hours."]) in
  Ok (<["improvement_suggestions" := PList suggestions]> insights).

(** [get_productivity_insights(user_id)] *)
Definition get_productivity_insights (d : database) (user : Z) : outcome dict :=
  let i0 := initial_insights in
  guarded i0 (set_most_productive_time d user i0) (fun i1 =>
  guarded i1 (set_average_session_length d user i1) (fun i2 =>
  guarded i2 (set_completion_rate d user i2) (fun i3 =>
  guarded i3 (set_top_categories d user i3) (fun i4 =>
  guarded i4 (set_project_breakdown d user i4) (fun i5 =>
  guarded i5 (set_improvement_suggestions i5) Ok))))).

(** [get_task_completion_rate(user_id)], called with a user id. *)
Definition get_task_completion_rate (d : database) (user : Z) : pyval :=
  catch_all
    (result ← completion_row d user;
     match result with
     | Some (completed, total) =>
         if 0 <? total
         then Ok (PNum (Qmin 100 (inject_Z completed / inject_Z total * 100)))
         else Ok (PInt 0)
     | None => Ok (PInt 0)
     end)
    (PInt 0).

(** ** IntelligentScheduler.create_smart_schedule *)

(** [self.analytics.get_productivity_insights(self.user_id)]; with no
    analytics object the attribute access raises. *)
Definition scheduler_insights (self : scheduler) : outcome dict :=
  if has_analytics self
  then get_productivity_insights (db self) (user_id self)
  else Raise AttributeError.

Definition create_smart_schedule (self : scheduler) (tasks : list dict)
    : list scheduled_task :=
  create_smart_schedule_with (now self) (scheduler_insights self)
    (fun name description category_id =>
       Ok (predict_task_duration self name description category_id))
    tasks.

(** ** IntelligentScheduler.get_schedule_recommendations *)

(** Comparison [v < x] of an object with a float literal. *)
Definition py_lt_q (v : pyval) (x : Q) : outcome bool :=
  match v with
  | PInt z => Ok (negb (Qle_bool x (inject_Z z)))
  | PNum q => Ok (negb (Qle_bool x q))
  | _ => Raise TypeError
  end.

Definition default_best_days : pyval :=
  PList [PStr "Monday"; PStr "Tuesday"; PStr "Wednesday"].

Definition breakdown_tip : pyval :=
  PStr "Consider breaking down larger tasks into smaller chunks".

Definition shorter_sessions_tip : pyval :=
  PStr "Try shorter, more focused work sessions".

(** [get_schedule_recommendations]; the empty dict stands for [{}]. *)
Definition get_schedule_recommendations (self : scheduler) : dict :=
  catch_all
    (insights ← scheduler_insights self;
     let recommendations : dict :=
       <["optimal_work_hours" :=
           get_or insights "most_productive_hours"
             (PList (PInt <$> default_productive_hours))]>
       (<["recommended_session_length" :=
           get_or insights "optimal_session_length" (PInt 45)]>
       (<["break_frequency" :=
           get_or insights "break_frequency" (PStr "every_90_minutes")]>
       (<["best_days" :=
           get_or insights "most_productive_days" default_best_days]>
       (<["focus_tips" := PList []]> ∅)))) in
     low ← py_lt_q (get_or insights "completion_rate" (PInt 0)) 0.7;
     let tips := if low : bool then [breakdown_tip] else [] in
     long ← py_gt (get_or insights "average_session_length" (PInt 0)) 120;
     let tips := tips ++ (if long : bool then [shorter_sessions_tip] else []) in
     Ok (<["focus_tips" := PList tips]> recommendations))
    ∅.

(** ** IntelligentScheduler: reminders *)

(** A row of the overdue query: the task and [DATEDIFF(CURDATE(),
    due_date)]. *)
Record overdue_row : Type := mk_overdue_row {
  od_task_name : string;
  days_overdue : Z
}.

(** A row of the deadline query: the task and [DATEDIFF(due_date,
    CURDATE())]. *)
Record upcoming_row : Type := mk_upcoming_row {
  up_task_name : string;
  days_until_due : Z
}.

(** The three queries of the reminder loop, as the cursor answers
    them. *)
Record reminder_queries : Type := mk_reminder_queries {
  overdue_rows : Z -> outcome (list overdue_row);
  upcoming_rows : Z -> outcome (list upcoming_row);
  work_time_rows : Z -> outcome (list pyval)
}.

(** What [_send_notification] is called with, by title. *)
Inductive notification : Type :=
| TaskOverdue (task_name : string)                   (* "Task overdue: ..." *)
| TaskSeverelyOverdue (task_name : string) (days : Z) (* "Task severely overdue: ..." *)
| DueToday (task_name : string)                      (* "Due today: ..." *)
| DueTomorrow (task_name : string)                   (* "Due tomorrow: ..." *)
| DueInThreeDays (task_name : string)                (* "Due in 3 days: ..." *)
| TimeForBreak (hours : pyval)                       (* "Time for a break!" *)
| StayHydrated.                                      (* "Stay hydrated!" *)

(** The body of the loop of [_check_overdue_tasks]. *)
Definition overdue_reminder (task : overdue_row) : list notification :=
  if days_overdue task =? 1 then [TaskOverdue (od_task_name task)]
  else if days_overdue task mod 3 =? 0
       then [TaskSeverelyOverdue (od_task_name task) (days_overdue task)]
       else [].

(** [for task in rows]: iterating [None] raises [TypeError]. *)
Definition iterate {A B} (rows : option (list A)) (body : A -> list B)
    : outcome (list B) :=
  match rows with
  | Some l => Ok (concat (map body l))
  | None => Raise TypeError
  end.

(** [_check_overdue_tasks]: the notifications it sends. *)
Definition check_overdue_tasks (connected : bool) (q : reminder_queries)
    (user : Z) : list notification :=
  catch_all
    (overdue_tasks ← execute_query connected (overdue_rows q user);
     iterate overdue_tasks overdue_reminder)
    [].

(** The body of the loop of [_check_upcoming_deadlines]. *)
Definition deadline_reminder (task : upcoming_row) : list notification :=
  if days_until_due task =? 0 then [DueToday (up_task_name task)]
  else if days_until_due task =? 1 then [DueTomorrow (up_task_name task)]
  else if days_until_due task =? 3 then [DueInThreeDays (up_task_name task)]
  else [].

(** [_check_upcoming_deadlines] *)
Definition check_upcoming_deadlines (connected : bool) (q : reminder_queries)
    (user : Z) : list notification :=
  catch_all
    (upcoming_tasks ← execute_query connected (upcoming_rows q user);
     iterate upcoming_tasks deadline_reminder)
    [].

(** [v // 60] for a number. *)
Definition py_floordiv60 (v : pyval) : outcome pyval :=
  match v with
  | PInt z => Ok (PInt (z / 60))
  | PNum q => Ok (PNum (inject_Z (Qfloor (q / 60))))
  | _ => Raise TypeError
  end.

(** [_suggest_breaks] of the reminder loop. *)
Definition suggest_breaks (connected : bool) (q : reminder_queries)
    (user : Z) : list notification :=
  catch_all
    (result ← execute_query connected (work_time_rows q user);
     match result with
     | Some (total_work_time :: _) =>
         if truthy total_work_time then
           over240 ← py_gt total_work_time 240;
           if over240 : bool then
             hours ← py_floordiv60 total_work_time;
             Ok [TimeForBreak hours]
           else
             over120 ← py_gt total_work_time 120;
             if over120 : bool then Ok [StayHydrated] else Ok []
         else Ok []
     | _ => Ok []
     end)
    [].

(** One pass of [_reminder_loop] before it sleeps. *)
Definition reminder_tick (connected : bool) (q : reminder_queries) (user : Z)
    : list notification :=
  check_overdue_tasks connected q user ++
  check_upcoming_deadlines connected q user ++
  suggest_breaks connected q user.

(** ** Analytics.generate_time_report *)

(** A row of the time-log query. *)
Record time_log : Type := mk_time_log {
  tl_task_name : string;
  tl_status_name : string;
  tl_category_name : option string;
  tl_project_name : option string;
  tl_duration_minutes : option Z
}.

(** The value stored per task name in [task_breakdown]. *)
Record task_summary : Type := mk_task_summary {
  ts_total_time : Z;
  ts_sessions : Z;
  ts_status : string;
  ts_category : string;
  ts_project : string
}.

(** The report dict. *)
Record time_report : Type := mk_time_report {
  tr_total_time : Z;
  tr_tasks_completed : Z;
  tr_average_duration : Q;
  tr_task_breakdown : list (string * task_summary);
  tr_period : string
}.

(** [name or default] for a nullable string column. *)
Definition or_default (name : option string) (dflt : string) : string :=
  match name with
  | Some s => if String.eqb s "" then dflt else s
  | None => dflt
  end.

(** [log['duration_minutes'] or 0] *)
Definition duration_or_0 (log : time_log) : Z :=
  default 0 (tl_duration_minutes log).

(** One iteration of the grouping loop: [task_breakdown] is a dict keyed
    by task name, which keeps the order of first insertion. *)
Fixpoint add_session (log : time_log) (task_breakdown : list (string * task_summary))
    : list (string * task_summary) :=
  match task_breakdown with
  | [] =>
      [(tl_task_name log,
        {| ts_total_time := 0 + duration_or_0 log;
           ts_sessions := 0 + 1;
           ts_status := tl_status_name log;
           ts_category := or_default (tl_category_name log) "Uncategorized";
           ts_project := or_default (tl_project_name log) "No Project" |})]
  | (name, data) :: rest =>
      if String.eqb name (tl_task_name log)
      then (name,
            {| ts_total_time := ts_total_time data + duration_or_0 log;
               ts_sessions := ts_sessions data + 1;
               ts_status := ts_status data;
               ts_category := ts_category data;
               ts_project := ts_project data |}) :: rest
      else (name, data) :: add_session log rest
  end.

Definition group_by_task (time_logs : list time_log) : list (string * task_summary) :=
  fold_left (fun task_breakdown log => add_session log task_breakdown) time_logs [].

(** [sum(log['duration_minutes'] for log in time_logs if
    log['duration_minutes'])] *)
Definition total_duration (time_logs : list time_log) : Z :=
  foldr (fun log acc =>
           match tl_duration_minutes log with
           | Some m => if m =? 0 then acc else m + acc
           | None => acc
           end) 0 time_logs.

(** [len([log for log in time_logs if log['status_name'] == 'completed'])] *)
Definition completed_sessions (time_logs : list time_log) : Z :=
  Z.of_nat (length (filter (fun log => tl_status_name log = "completed"%string)
                           time_logs)).

(** [generate_time_report(user_id, report_type)]; the rows depend on the
    report type through the filter appended to the query. [None] stands
    for the [{}] returned on a MySQL error. *)
Definition generate_time_report (rows : Z -> string -> outcome (list time_log))
    (user : Z) (report_type : string) : outcome (option time_report) :=
  catch_db
    (time_logs ← rows user report_type;
     match time_logs with
     | [] => Ok (Some (mk_time_report 0 0 0 [] report_type))
     | _ =>
         Ok (Some
           {| tr_total_time := total_duration time_logs;
              tr_tasks_completed := completed_sessions time_logs;
              tr_average_duration :=
                (inject_Z (total_duration time_logs)
                 / inject_Z (Z.of_nat (length time_logs)))%Q;
              tr_task_breakdown := group_by_task time_logs;
              tr_period := report_type |})
     end)
    None.

(** ** The command line's break menu *)

(** The dict [suggest_break] returns. *)
Definition break_suggestion_dict (s : break_suggestion) : dict :=
  <["type" := PStr (bs_type s)]> (<["duration" := PInt (bs_duration s)]>
  (<["message" := PStr (bs_message s)]> ∅)).

(** [v[key]] where [v] is a dict or [None]. *)
Definition subscript_optional (v : option dict) (key : string) : outcome pyval :=
  match v with
  | Some d => subscript d key
  | None => Raise TypeError
  end.

(** [SmartTimeTrackerCLI.show_break_suggestions], once analytics is
    initialised and a user is logged in. *)
Definition show_break_suggestions (d : database) (user : Z) : outcome unit :=
  suggestion ← suggest_break d user;
  let break_suggestion := break_suggestion_dict <$> suggestion in
  should ← subscript_optional break_suggestion "should_take_break";
  if truthy should then
    reason ← subscript_optional break_suggestion "reason";
    recommended ← subscript_optional break_suggestion "recommended_duration";
    Ok tt
  else Ok tt.

(** * Reference definitions

    The vocabulary of the specification, and the sample inputs the
    statements below are evaluated on. *)

(** The break ladder of the schedule builder, by minutes. *)
Definition break_for (minutes : Q) : Z :=
  if Qle_bool minutes 30 then 5
  else if Qle_bool minutes 60 then 10
  else if Qle_bool minutes 120 then 15
  else 20.

(** Two placements overlap when their intervals [start, end) share an
    instant. *)
Definition overlap (a b : scheduled_task) : Prop :=
  exists ea eb x,
    task_end a = Ok ea /\ task_end b = Ok eb /\
    dt_us (start_time a) <= x < dt_us ea /\
    dt_us (start_time b) <= x < dt_us eb.

(** A run of placements as the loop produces it: [placed hours i earlier
    cur added] says that [added] is what the iterations starting at
    index [i] append to [earlier] when the cursor is [cur]. *)
Inductive placed (hours : list Z)
  : nat -> list scheduled_task -> datetime -> list scheduled_task -> Prop :=
| placed_nil i earlier cur : placed hours i earlier cur []
| placed_first earlier cur t rest cur' :
    find_optimal_start_time cur (duration t) hours earlier = Ok (start_time t) ->
    task_end t = Ok cur' ->
    placed hours 1 (earlier ++ [t]) cur' rest ->
    placed hours 0 earlier cur (t :: rest)
| placed_next i earlier cur t rest optimal break_duration cur' :
    find_optimal_start_time cur (duration t) hours earlier = Ok optimal ->
    calculate_break_duration (duration t) = Ok break_duration ->
    dt_add optimal (break_duration * us_per_minute) = Ok (start_time t) ->
    task_end t = Ok cur' ->
    placed hours (S (S i)) (earlier ++ [t]) cur' rest ->
    placed hours (S i) earlier cur (t :: rest).

(** The number of similar completed tasks the estimate found; none when
    the query failed. *)
Definition similar_found (d : database) (user : Z)
    (task_name category_id : pyval) : nat :=
  match similar_tasks_rows d user task_name
          (if truthy category_id then Some category_id else None) with
  | Ok found => length found
  | Raise _ => 0%nat
  end.

Definition label_of_count (n : nat) : string :=
  if (3 <=? n)%nat then "high" else if (1 <=? n)%nat then "medium" else "low".

Definition min_avg_duration (tasks : list similar_task) : Q :=
  match tasks with
  | [] => 0%Q
  | t :: rest => foldr (fun t acc => Qmin (avg_duration t) acc) (avg_duration t) rest
  end.

Definition max_avg_duration (tasks : list similar_task) : Q :=
  match tasks with
  | [] => 0%Q
  | t :: rest => foldr (fun t acc => Qmax (avg_duration t) acc) (avg_duration t) rest
  end.

(** The table of default durations as the specification lists it, in
    minutes; every other label counts as [other]. *)
Definition spec_default_minutes (label : string) : Z :=
  if String.eqb label "coding" then 120
  else if String.eqb label "design" then 90
  else if String.eqb label "planning" then 60
  else if String.eqb label "testing" then 45
  else if String.eqb label "documentation" then 60
  else if String.eqb label "meeting" then 30
  else 60.

(** The same defaults as [predict_task_duration] reports them: hours,
    rounded to one decimal. *)
Definition default_hours (label : string) : Q :=
  round1 (inject_Z (spec_default_minutes label) / 60).

(** The category has no usable historical average. *)
Definition no_average (result : option (list pyval)) : bool :=
  match result with
  | Some (avg :: _) => negb (truthy avg)
  | _ => true
  end.

(** A query that fails, if at all, with MySQL's error. *)
Definition db_failure_only {A} (o : outcome A) : Prop :=
  match o with
  | Ok _ => True
  | Raise e => e = DbError
  end.

(** [None] or a number: what [AVG] and [SUM] return. *)
Definition sql_number (v : pyval) : Prop :=
  v = PNone \/ is_Some (num_of v).

(** The entries of the insights that the improvement suggestions read. *)
Definition insights_well_formed (i : dict) : Prop :=
  (exists v, i !! "average_session_length" = Some v /\ is_Some (num_of v)) /\
  (exists v, i !! "completion_rate" = Some v /\ is_Some (num_of v)) /\
  is_Some (i !! "most_productive_time").

(** ** Vocabulary of the further properties *)

(** A placement whose duration is a number that is not negative. *)
Definition nonnegative_duration (s : scheduled_task) : Prop :=
  exists q, num_of (duration s) = Some q /\ (0 <= q)%Q.

(** The placement [s] was made for [task]: it carries the task's name and
    the task's category and project names, or their defaults. *)
Definition placed_for (task : dict) (s : scheduled_task) : Prop :=
  task !! "name" = Some (task_name s) /\
  category s = get_or task "category_name" (PStr "Unknown") /\
  project s = get_or task "project_name" (PStr "No Project").



(** The keys of the insights dict. *)
Definition insights_keys : list string :=
  ["most_productive_time"; "average_session_length"; "completion_rate";
   "improvement_suggestions"; "top_categories"; "project_breakdown"]%string.

Definition track_patterns_suggestion : pyval :=
  PStr "Track your productivity patterns to identify your most productive hours.".

Definition realistic_deadlines_suggestion : pyval :=
  PStr "Try setting more realistic deadlines to improve completion rates.".

(** ** Sample inputs *)

Definition sample_categories (category_id : pyval) : outcome (list pyval) :=
  match category_id with
  | PInt 1 => Ok [PStr "coding"]
  | PInt 2 => Ok [PStr "design"]
  | PInt 3 => Ok [PStr "testing"]
  | _ => Ok []
  end.

(** A reachable database with no time logs for the categories, the
    given similar tasks, recent activity and task counts. *)
Definition sample_database (similar : list similar_task) (recent : pyval)
    (counts : Z * Z) : database :=
  {| category_name_rows := sample_categories;
     category_average_rows := fun _ _ => Ok [PNone];
     similar_tasks_rows := fun _ _ _ => Ok similar;
     average_time_row := fun _ _ => Ok (Some PNone);
     recent_activity_row := fun _ => Ok (Some recent);
     time_analysis_row := fun _ => Ok (Some 10);
     avg_session_row := fun _ => Ok (Some (PNum 42.5));
     completion_row := fun _ => Ok (Some counts);
     top_categories_rows := fun _ => Ok (PList []);
     project_breakdown_rows := fun _ => Ok (PList []) |}.

Definition sample_day : Z := 739000.

Definition sample_scheduler : scheduler :=
  {| user_id := 1;
     db := sample_database [] PNone (1, 3);
     connected := true;
     has_analytics := true;
     now := datetime_of sample_day 8 0 |}.

(** The same scheduler over a database whose category-average query
    fails with an error that is not MySQL's. *)
Definition failing_estimator_scheduler : scheduler :=
  {| user_id := 1;
     db := {| category_name_rows := sample_categories;
              category_average_rows := fun _ _ => Raise OtherError;
              similar_tasks_rows := fun _ _ _ => Ok [];
              average_time_row := fun _ _ => Ok (Some PNone);
              recent_activity_row := fun _ => Ok (Some PNone);
              time_analysis_row := fun _ => Ok (Some 10);
              avg_session_row := fun _ => Ok (Some (PNum 42.5));
              completion_row := fun _ => Ok (Some (1, 3));
              top_categories_rows := fun _ => Ok (PList []);
              project_breakdown_rows := fun _ => Ok (PList []) |};
     connected := true;
     has_analytics := true;
     now := datetime_of sample_day 8 0 |}.

Definition write_tests_task : dict :=
  <["name" := PStr "Write tests"]> (<["description" := PStr ""]>
  (<["category_id" := PInt 3]> ∅)).

Definition three_similar_tasks : list similar_task :=
  [ mk_similar_task (PStr "Write unit tests") (PStr "testing") 40 3 PNone;
    mk_similar_task (PStr "Write tests") (PStr "testing") 50 2 PNone;
    mk_similar_task (PStr "Write test plan") (PStr "testing") 65.5 1 PNone ].

(** An estimator that answers every task with the same number of
    minutes under the key the loop reads. *)
Definition fixed_estimate (minutes : Z) : predictor := fun _ _ _ =>
  Ok (<["predicted_duration" := PInt minutes]> (<["confidence" := PNum 70]> ∅)).

(** An estimator that answers by task name. *)
Definition estimate_by_name (minutes : gmap string Z) : predictor :=
  fun name _ _ =>
    match name with
    | PStr s =>
        match minutes !! s with
        | Some m => Ok (<["predicted_duration" := PInt m]>
                          (<["confidence" := PNum 70]> ∅))
        | None => Raise OtherError
        end
    | _ => Raise OtherError
    end.

(** Insights that carry productive hours 9 and 14. *)
Definition insights_9_14 : dict :=
  <["most_productive_hours" := PList [PInt 9; PInt 14]]> initial_insights.

Definition named_task (name : string) : dict := <["name" := PStr name]> ∅.

Definition placement (name : string) (start : datetime) (minutes : Z)
    : scheduled_task :=
  mk_scheduled_task (PStr name) start (PInt minutes) (PNum 70)
    (PStr "Unknown") (PStr "No Project").

(** Durations, in minutes, for the named sample tasks. *)
Definition minutes_by_name : gmap string Z :=
  <["short" := 30]> (<["long" := 200]> (<["review" := 130]> (<["note" := 10]> ∅))).

(** A single similar task whose three sessions of 45, 45 and 46 minutes
    average to 45.3333, as MySQL reports it. *)
Definition one_similar_task : list similar_task :=
  [ mk_similar_task (PStr "Write tests") (PStr "testing") 45.3333 3 PNone ].

(** Insights that carry an empty list of productive hours. *)
Definition insights_no_hours : dict :=
  <["most_productive_hours" := PList []]> initial_insights.

(** The sample scheduler when no connection can be had. *)
Definition unreachable_scheduler : scheduler :=
  {| user_id := 1;
     db := sample_database [] PNone (1, 3);
     connected := false;
     has_analytics := true;
     now := datetime_of sample_day 8 0 |}.

(** A scheduler over a database that has time logs for every category,
    90 minutes on average. *)
Definition averaging_scheduler : scheduler :=
  {| user_id := 1;
     db := {| category_name_rows := sample_categories;
              category_average_rows := fun _ _ => Ok [PNum 90];
              similar_tasks_rows := fun _ _ _ => Ok [];
              average_time_row := fun _ _ => Ok (Some (PNum 90));
              recent_activity_row := fun _ => Ok (Some PNone);
              time_analysis_row := fun _ => Ok (Some 10);
              avg_session_row := fun _ => Ok (Some (PNum 42.5));
              completion_row := fun _ => Ok (Some (1, 3));
              top_categories_rows := fun _ => Ok (PList []);
              project_breakdown_rows := fun _ => Ok (PList []) |};
     connected := true;
     has_analytics := true;
     now := datetime_of sample_day 8 0 |}.

(** Three overdue tasks, three tasks due soon and 250 minutes of work in
    the last four hours. *)
Definition sample_reminders : reminder_queries :=
  {| overdue_rows := fun _ =>
       Ok [mk_overdue_row "report" 1; mk_overdue_row "slides" 6;
           mk_overdue_row "budget" 2];
     upcoming_rows := fun _ =>
       Ok [mk_upcoming_row "demo" 0; mk_upcoming_row "review" 2;
           mk_upcoming_row "release" 3];
     work_time_rows := fun _ => Ok [PNum 250] |}.

(** Three sessions on two tasks, one of them still running. *)
Definition sample_time_logs : list time_log :=
  [ mk_time_log "Write tests" "completed" (Some "testing") None (Some 30);
    mk_time_log "Fix bug" "in_progress" None (Some "Tracker") (Some 45);
    mk_time_log "Write tests" "completed" (Some "testing") None None ].

Definition sample_time_log_rows (user : Z) (report_type : string)
    : outcome (list time_log) :=
  Ok sample_time_logs.

(** A database whose session-average query is refused by MySQL. *)
Definition sessions_query_fails : database :=
  {| category_name_rows := sample_categories;
     category_average_rows := fun _ _ => Ok [PNone];
     similar_tasks_rows := fun _ _ _ => Ok [];
     average_time_row := fun _ _ => Ok (Some PNone);
     recent_activity_row := fun _ => Ok (Some PNone);
     time_analysis_row := fun _ => Ok None;
     avg_session_row := fun _ => Raise DbError;
     completion_row := fun _ => Ok (Some (1, 3));
     top_categories_rows := fun _ => Ok (PList []);
     project_breakdown_rows := fun _ => Ok (PList []) |}.

(** * Properties *)

(** ** Outcomes and dicts *)

Lemma bind_Ok {A B} (a : A) (k : A -> outcome B) : (Ok a ≫= k) = k a.
Proof. reflexivity. Qed.

Lemma bind_Raise {A B} (e : exn) (k : A -> outcome B) : (Raise e ≫= k) = Raise e.
Proof. reflexivity. Qed.

Lemma bind_inv {A B} (m : outcome A) (k : A -> outcome B) (b : B) :
  (m ≫= k) = Ok b -> exists a, m = Ok a /\ k a = Ok b.
Proof. destruct m as [a|e]; [eauto|done]. Qed.

(** Peels the successful binds of a hypothesis [m ≫= k = Ok b]. *)
Ltac inv_bind H :=
  repeat (let a := fresh "a" in
          let Ha := fresh "H" a in
          apply bind_inv in H as (a & Ha & H)).

Lemma subscript_Some (d : dict) key v :
  d !! key = Some v -> subscript d key = Ok v.
Proof. unfold subscript. by intros ->. Qed.

Lemma subscript_None (d : dict) key :
  d !! key = None -> subscript d key = Raise (KeyError key).
Proof. unfold subscript. by intros ->. Qed.

(** ** Comparisons and rounding *)

Lemma Qle_bool_false (x y : Q) : Qle_bool x y = false <-> (y < x)%Q.
Proof.
  split; intros H.
  - apply Qnot_le_lt. intros Hle. apply Qle_bool_iff in Hle. congruence.
  - destruct (Qle_bool x y) eqn:E; [|reflexivity].
    apply Qle_bool_iff in E. exfalso. apply (Qlt_not_le _ _ H E).
Qed.

Lemma Zleb_Qle_bool (z n : Z) : (z <=? n) = Qle_bool (inject_Z z) (inject_Z n).
Proof.
  destruct (Qle_bool _ _) eqn:E.
  - apply Qle_bool_iff in E. rewrite <- Zle_Qle in E. by apply Z.leb_le.
  - apply Z.leb_gt. destruct (Z.le_gt_cases z n) as [Hl|Hl]; [|lia].
    rewrite Zle_Qle in Hl. apply Qle_bool_iff in Hl. congruence.
Qed.

Lemma py_le_num v n b :
  py_le v n = Ok b ->
  exists q, num_of v = Some q /\ b = Qle_bool q (inject_Z n).
Proof.
  destruct v; simpl; intros [= <-]; eexists; (split; [reflexivity|]);
    [apply Zleb_Qle_bool|done].
Qed.

Lemma py_gt_num v q n :
  num_of v = Some q -> py_gt v n = Ok (negb (Qle_bool q (inject_Z n))).
Proof.
  destruct v; simpl; intros H; try discriminate; injection H as <-; [|reflexivity].
  f_equal. rewrite <- Zleb_Qle_bool. rewrite Z.ltb_antisym. reflexivity.
Qed.

Lemma py_lt_num v n : is_Some (num_of v) -> exists b, py_lt v n = Ok b.
Proof. destruct v; simpl; intros [? H]; try discriminate; eauto. Qed.

Lemma py_round1_num v :
  is_Some (num_of v) -> exists w, py_round1 v = Ok w /\ is_Some (num_of w).
Proof. destruct v; simpl; intros [? H]; try discriminate; eauto. Qed.

Lemma py_round2_num v :
  is_Some (num_of v) -> exists w, py_round2 v = Ok w /\ is_Some (num_of w).
Proof. destruct v; simpl; intros [? H]; try discriminate; eauto. Qed.

Lemma round_half_even_cases (x : Q) :
  (round_half_even x = Qfloor x /\ (x <= inject_Z (Qfloor x) + (1 # 2))%Q) \/
  (round_half_even x = Qfloor x + 1 /\ (inject_Z (Qfloor x) + (1 # 2) <= x)%Q).
Proof.
  unfold round_half_even.
  destruct (Qcompare_spec (x - inject_Z (Qfloor x)) (1 # 2)) as [H|H|H].
  - destruct (Z.even (Qfloor x)); [left|right]; split; try reflexivity; lra.
  - left. split; [reflexivity|lra].
  - right. split; [reflexivity|lra].
Qed.

Lemma round_half_even_close (x : Q) :
  (inject_Z (round_half_even x) - (1 # 2) <= x
   <= inject_Z (round_half_even x) + (1 # 2))%Q.
Proof.
  pose proof (Qfloor_le x) as Hlo. pose proof (Qlt_floor x) as Hhi.
  rewrite inject_Z_plus in Hhi. change (inject_Z 1) with 1%Q in Hhi.
  destruct (round_half_even_cases x) as [[-> H]|[-> H]].
  - lra.
  - rewrite inject_Z_plus. change (inject_Z 1) with 1%Q. lra.
Qed.


Lemma round_half_even_ge (x : Q) (n : Z) :
  (inject_Z n <= x)%Q -> n <= round_half_even x.
Proof.
  intros Hx. pose proof (Qlt_floor x) as Hhi.
  assert (n < Qfloor x + 1) by (rewrite Zlt_Qlt; lra).
  destruct (round_half_even_cases x) as [[-> H']|[-> H']]; lia.
Qed.


(** ... and moves a number by at most 0.05. *)
Lemma round1_close (x : Q) :
  (round1 x - (1 # 20) <= x <= round1 x + (1 # 20))%Q.
Proof.
  unfold round1. rewrite Qred_correct.
  pose proof (round_half_even_close (x * 10)) as [H1 H2].
  set (r := inject_Z (round_half_even (x * 10))) in *.
  assert (r / 10 == r * (1 # 10))%Q as -> by (field).
  lra.
Qed.

(** ** BreakAdvisor *)

(** C10: whatever the sum of minutes logged in the trailing four hours,
    [suggest_break] answers with the extended 30-minute break above 240,
    the short 15-minute break above 120 and up to 240, the 5-minute
    micro-break above 60 and up to 120, and nothing up to 60. *)
Theorem suggest_break_ladder (d : database) (user : Z) (sum : pyval) (q : Q) :
  recent_activity_row d user = Ok (Some sum) ->
  num_of sum = Some q ->
  exists r, suggest_break d user = Ok r /\
    ((240 < q)%Q -> exists s, r = Some s /\
        bs_type s = "extended_break"%string /\ bs_duration s = 30) /\
    ((120 < q <= 240)%Q -> exists s, r = Some s /\
        bs_type s = "short_break"%string /\ bs_duration s = 15) /\
    ((60 < q <= 120)%Q -> exists s, r = Some s /\
        bs_type s = "micro_break"%string /\ bs_duration s = 5) /\
    ((q <= 60)%Q -> r = None).
Proof.
  intros Hrow Hnum. unfold suggest_break. rewrite Hrow, bind_Ok.
  assert (Hrecent : exists v, (if truthy sum then sum else PInt 0) = v /\
            forall n, (0 <= n)%Z ->
              py_gt v n = Ok (negb (Qle_bool q (inject_Z n)))).
  { destruct (truthy sum) eqn:Ht.
    - exists sum. split; [reflexivity|]. intros n _. by apply py_gt_num.
    - exists (PInt 0). split; [reflexivity|]. intros n Hn.
      assert (Hq : (q == 0)%Q).
      { destruct sum; simpl in *; try discriminate; injection Hnum as <-.
        - apply negb_false_iff, Z.eqb_eq in Ht. by subst.
        - apply negb_false_iff in Ht. by apply Qeq_bool_iff in Ht. }
      rewrite (py_gt_num _ 0%Q) by reflexivity. do 2 f_equal.
      transitivity true; [|symmetry]; apply Qle_bool_iff; rewrite ?Hq;
        change 0%Q with (inject_Z 0); by rewrite <- Zle_Qle. }
  destruct Hrecent as (v & -> & Hgt). rewrite bind_Ok.
  rewrite (Hgt 240), (Hgt 120), (Hgt 60) by lia.
  change (inject_Z 240) with 240%Q. change (inject_Z 120) with 120%Q.
  change (inject_Z 60) with 60%Q.
  destruct (Qle_bool q 240) eqn:E240; simpl.
  - apply Qle_bool_iff in E240.
    destruct (Qle_bool q 120) eqn:E120; simpl.
    + apply Qle_bool_iff in E120.
      destruct (Qle_bool q 60) eqn:E60; simpl.
      * apply Qle_bool_iff in E60. eexists; split; [reflexivity|].
        repeat split; intros; try lra.
      * apply Qle_bool_false in E60. eexists; split; [reflexivity|].
        repeat split; intros; try lra. eexists; eauto.
    + apply Qle_bool_false in E120. eexists; split; [reflexivity|].
      repeat split; intros; try lra. eexists; eauto.
  - apply Qle_bool_false in E240. eexists; split; [reflexivity|].
    repeat split; intros; try lra. eexists; eauto.
Qed.

Lemma suggest_break_ladder_witness :
  exists s, suggest_break (sample_database [] (PNum 250) (1, 3)) 1 = Ok (Some s) /\
            bs_type s = "extended_break"%string /\ bs_duration s = 30.
Proof.
  destruct (suggest_break_ladder (sample_database [] (PNum 250) (1, 3)) 1
              (PNum 250) 250 eq_refl eq_refl)
    as (r & Hr & Hext & _).
  destruct Hext as (s & -> & Hs); [reflexivity|].
  exists s. split; [exact Hr|exact Hs].
Defined.

(** Fifty minutes in the window: no suggestion. *)
Example suggest_break_50 :
  suggest_break (sample_database [] (PNum 50) (1, 3)) 1 = Ok None.
Proof. reflexivity. Qed.

(** No log in the window ([SUM] is [NULL]): no suggestion either. *)
Example suggest_break_no_logs :
  suggest_break (sample_database [] PNone (1, 3)) 1 = Ok None.
Proof. reflexivity. Qed.

(** A MySQL error is answered with no suggestion. *)
Lemma suggest_break_db_error (d : database) (user : Z) :
  recent_activity_row d user = Raise DbError ->
  suggest_break d user = Ok None.
Proof. unfold suggest_break. by intros ->. Qed.

(** [suggest_break] answers whenever its query fails, if at all, with
    MySQL's error and the sum is a number or [NULL]. *)
Lemma suggest_break_returns (d : database) (user : Z) :
  db_failure_only (recent_activity_row d user) ->
  (forall r, recent_activity_row d user = Ok r ->
     exists v, r = Some v /\ sql_number v) ->
  exists r, suggest_break d user = Ok r.
Proof.
  intros Hfail Hrow. unfold suggest_break.
  destruct (recent_activity_row d user) as [r|e]; simpl in Hfail.
  - destruct (Hrow r eq_refl) as (v & -> & Hv). rewrite bind_Ok.
    assert (Hnum : exists q, num_of (if truthy v then v else PInt 0) = Some q).
    { destruct Hv as [->|[q Hq]]; [by eexists|].
      destruct (truthy v); [by eexists|by eexists]. }
    destruct Hnum as [q Hq]. rewrite bind_Ok.
    rewrite !(py_gt_num _ _ _ Hq).
    destruct (Qle_bool q (inject_Z 240)); simpl; eauto.
    destruct (Qle_bool q (inject_Z 120)); simpl; eauto.
    destruct (Qle_bool q (inject_Z 60)); simpl; eauto.
  - subst e. simpl. eauto.
Qed.

(** ** DurationEstimator: confidence and weighted average *)

Lemma suggest_breaks_for_num v q :
  num_of v = Some q -> exists l, suggest_breaks_for v = Ok l.
Proof.
  destruct v; simpl; intros H; try discriminate; unfold suggest_breaks_for; simpl.
  - destruct (120 <? z); simpl; eauto. destruct (60 <? z); simpl; eauto.
  - destruct (Qle_bool q0 _); simpl; eauto. destruct (Qle_bool q0 _); simpl; eauto.
Qed.

(** The label is a function of the number of similar tasks found. *)
Lemma suggestion_label (d : database) (user : Z) (task_name category_id : pyval)
    (s : suggestion) :
  get_smart_scheduling_suggestion d user task_name category_id = Ok s ->
  confidence_level s = label_of_count (similar_found d user task_name category_id).
Proof.
  unfold get_smart_scheduling_suggestion, similar_found.
  destruct (similar_tasks_rows _ _ _ _) as [[|t rest]|e]; simpl.
  - destruct (if truthy category_id then _ else _) as [avg|e]; simpl;
      [destruct (py_round2 avg) as [est|e]; simpl;
        [destruct (suggest_breaks_for est) as [l|e]; simpl|]|];
      try (destruct (is_db_error e); [|done]); by intros [= <-].
  - destruct (suggest_breaks_for_num
                (PNum (round2 (weighted_avg (t :: rest)))) _ eq_refl) as [l ->].
    simpl. by intros [= <-].
  - destruct (is_db_error e); [|done]. by intros [= <-].
Qed.

Lemma calculate_average_time_returns (d : database) (user : Z)
    (task_type category_id : pyval) :
  (forall f, db_failure_only (average_time_row d user f)) ->
  (forall f r, average_time_row d user f = Ok r ->
     exists v, r = Some v /\ sql_number v) ->
  exists avg, calculate_average_time d user task_type category_id = Ok avg /\
              is_Some (num_of avg).
Proof.
  intros Hfail Hrow. unfold calculate_average_time.
  set (f := if truthy category_id then _ else _).
  specialize (Hfail f). specialize (Hrow f).
  destruct (average_time_row d user f) as [r|e]; simpl in *.
  - destruct (Hrow r eq_refl) as (v & -> & [->|Hv]); simpl.
    + exists (PInt 0). split; [done|by eexists].
    + destruct (truthy v); simpl; [by exists v|].
      exists (PInt 0). split; [done|by eexists].
  - subst e. simpl. exists (PInt 0). split; [done|by eexists].
Qed.

(** The estimate answers whenever its queries fail, if at all, with
    MySQL's error and the averages are numbers or [NULL]. *)
Lemma get_smart_scheduling_suggestion_returns (d : database) (user : Z)
    (task_name category_id : pyval) :
  db_failure_only (similar_tasks_rows d user task_name
    (if truthy category_id then Some category_id else None)) ->
  (forall f, db_failure_only (average_time_row d user f)) ->
  (forall f r, average_time_row d user f = Ok r ->
     exists v, r = Some v /\ sql_number v) ->
  exists s, get_smart_scheduling_suggestion d user task_name category_id = Ok s.
Proof.
  intros Hsim Hfail Hrow. unfold get_smart_scheduling_suggestion.
  destruct (similar_tasks_rows _ _ _ _) as [[|t rest]|e]; simpl in Hsim.
  - rewrite bind_Ok.
    assert (Havg : exists avg,
        (if truthy category_id
         then calculate_average_time d user PNone category_id
         else calculate_average_time d user PNone PNone) = Ok avg /\
        is_Some (num_of avg)).
    { destruct (truthy category_id); by apply calculate_average_time_returns. }
    destruct Havg as (avg & -> & Havg). rewrite bind_Ok.
    destruct (py_round2_num avg Havg) as (est & -> & [q Hq]). rewrite !bind_Ok.
    cbn [estimated_duration].
    destruct (suggest_breaks_for_num est q Hq) as [l ->]. simpl. eauto.
  - rewrite !bind_Ok. cbn [estimated_duration].
    destruct (suggest_breaks_for_num
                (PNum (round2 (weighted_avg (t :: rest)))) _ eq_refl) as [l ->].
    simpl. eauto.
  - subst e. simpl. eauto.
Qed.

(** C6: the confidence label of the estimate is [high] exactly when at
    least three similar completed tasks were found, [medium] exactly when
    one or two were, and [low] exactly when none was. *)
Theorem confidence_level_by_count (d : database) (user : Z)
    (task_name category_id : pyval) (s : suggestion) :
  get_smart_scheduling_suggestion d user task_name category_id = Ok s ->
  let n := similar_found d user task_name category_id in
  (confidence_level s = "high"%string <-> (3 <= n)%nat) /\
  (confidence_level s = "medium"%string <-> (1 <= n <= 2)%nat) /\
  (confidence_level s = "low"%string <-> n = 0%nat).
Proof.
  intros H n. rewrite (suggestion_label _ _ _ _ _ H). fold n. unfold label_of_count.
  destruct (3 <=? n)%nat eqn:E3; [apply Nat.leb_le in E3 | apply Nat.leb_gt in E3];
  (destruct (1 <=? n)%nat eqn:E1; [apply Nat.leb_le in E1 | apply Nat.leb_gt in E1]);
  repeat split; intros; try lia; try done.
Qed.

Lemma confidence_level_by_count_witness :
  exists s,
    get_smart_scheduling_suggestion
      (sample_database three_similar_tasks PNone (1, 3)) 1
      (PStr "Write tests") (PInt 3) = Ok s /\
    confidence_level s = "high"%string.
Proof.
  eexists. split; [reflexivity|].
  apply (confidence_level_by_count
           (sample_database three_similar_tasks PNone (1, 3)) 1
           (PStr "Write tests") (PInt 3) _ eq_refl).
  vm_compute. lia.
Defined.

Example confidence_medium :
  confidence_level <$>
    (match get_smart_scheduling_suggestion
             (sample_database (take 2 three_similar_tasks) PNone (1, 3)) 1
             (PStr "Write tests") (PInt 3) with
     | Ok s => Some s | Raise _ => None end) = Some "medium"%string.
Proof. reflexivity. Qed.

Example confidence_low :
  get_smart_scheduling_suggestion (sample_database [] PNone (1, 3)) 1
    (PStr "Write tests") (PInt 3) = Ok (mk_suggestion (PInt 0) "low" [] []).
Proof. reflexivity. Qed.








(** On the sample the three quantities are 40, 47.58... and 65.5. *)
Example weighted_avg_sample :
  Qred (weighted_avg three_similar_tasks) = (571 # 12)%Q /\
  Qred (min_avg_duration three_similar_tasks) = 40%Q /\
  Qred (max_avg_duration three_similar_tasks) = (131 # 2)%Q.
Proof. repeat split; reflexivity. Qed.

(** The duration reported is the weighted average rounded to two
    decimals: it is within 0.005 of it, and may leave the interval by
    that much. *)
Lemma round2_close (x : Q) :
  (round2 x - (1 # 200) <= x <= round2 x + (1 # 200))%Q.
Proof.
  unfold round2. rewrite Qred_correct.
  pose proof (round_half_even_close (x * 100)) as [H1 H2].
  set (r := inject_Z (round_half_even (x * 100))) in *.
  assert (r / 100 == r * (1 # 100))%Q as -> by (field).
  lra.
Qed.

Lemma estimated_duration_similar (d : database) (user : Z)
    (task_name category_id : pyval) (found : list similar_task) (s : suggestion) :
  similar_tasks_rows d user task_name
    (if truthy category_id then Some category_id else None) = Ok found ->
  found <> [] ->
  get_smart_scheduling_suggestion d user task_name category_id = Ok s ->
  estimated_duration s = PNum (round2 (weighted_avg found)) /\
  similar_tasks s = found.
Proof.
  intros Hrows Hne. unfold get_smart_scheduling_suggestion.
  rewrite Hrows, bind_Ok. destruct found as [|t rest]; [done|].
  rewrite bind_Ok. cbn [estimated_duration].
  destruct (suggest_breaks_for_num
              (PNum (round2 (weighted_avg (t :: rest)))) _ eq_refl) as [l ->].
  simpl. by intros [= <-].
Qed.

Example estimated_duration_rounded :
  estimated_duration <$>
    (match get_smart_scheduling_suggestion
             (sample_database one_similar_task PNone (1, 3)) 1
             (PStr "Write tests") (PInt 3) with
     | Ok s => Some s | Raise _ => None end) = Some (PNum 45.33) /\
  Qred (min_avg_duration one_similar_task) = 45.3333%Q.
Proof. split; reflexivity. Qed.

(** ** InsightsAggregator: completion rate *)


Lemma guarded_cases (i : dict) (step : outcome dict) (k : dict -> outcome dict)
    (r : dict) :
  guarded i step k = Ok r ->
  (r = i /\ step = Raise DbError) \/ (exists i', step = Ok i' /\ k i' = Ok r).
Proof.
  unfold guarded. destruct step as [i'|e].
  - intros H. right. eauto.
  - destruct e; simpl; try done. intros [= <-]. by left.
Qed.

Section CompletionRateKey.

(** Every step but one leaves the entry of ["completion_rate"] alone. *)
Variables (d : database) (user : Z).









End CompletionRateKey.

Lemma guarded_returns (i : dict) (step : outcome dict) (k : dict -> outcome dict) :
  db_failure_only step ->
  (forall i', step = Ok i' -> exists r, k i' = Ok r) ->
  exists r, guarded i step k = Ok r.
Proof.
  unfold guarded. destruct step as [i'|e]; simpl.
  - intros _ H. by apply H.
  - intros -> _. simpl. eauto.
Qed.

Lemma set_improvement_suggestions_returns i :
  insights_well_formed i -> exists r, set_improvement_suggestions i = Ok r.
Proof.
  intros ((s & Hs & [qs Hqs]) & (r & Hr & Hqr) & [b Hb]).
  unfold set_improvement_suggestions.
  rewrite (subscript_Some _ _ _ Hs), bind_Ok, (py_gt_num _ _ _ Hqs), bind_Ok.
  rewrite (subscript_Some _ _ _ Hr), bind_Ok.
  destruct (py_lt_num r 70 Hqr) as [lo ->]. rewrite bind_Ok.
  rewrite (subscript_Some _ _ _ Hb), bind_Ok. eauto.
Qed.

(** The insights are returned whenever the queries fail, if at all,
    with MySQL's error and the average session is a number or [NULL]. *)
Lemma get_productivity_insights_returns (d : database) (user : Z) :
  db_failure_only (time_analysis_row d user) ->
  db_failure_only (avg_session_row d user) ->
  (forall v, avg_session_row d user = Ok (Some v) -> sql_number v) ->
  db_failure_only (completion_row d user) ->
  db_failure_only (top_categories_rows d user) ->
  db_failure_only (project_breakdown_rows d user) ->
  exists insights, get_productivity_insights d user = Ok insights.
Proof.
  intros H1 H2 H2v H3 H4 H5. unfold get_productivity_insights.
  assert (Hwf0 : insights_well_formed initial_insights).
  { split; [|split]; [exists (PInt 0)|exists (PInt 0)|];
      try (split; [reflexivity|by eexists]). by eexists. }
  revert Hwf0. generalize initial_insights as i0. intros i0 Hwf0.
  apply guarded_returns.
  { unfold set_most_productive_time.
    destruct (time_analysis_row d user) as [[h|]|e]; done. }
  intros i1 Hi1.
  assert (Hwf1 : insights_well_formed i1).
  { revert Hi1. unfold set_most_productive_time.
    destruct (time_analysis_row d user) as [[h|]|e]; simpl; intros [= <-]; [|done].
    destruct Hwf0 as (Ha & Hb & Hc). split; [|split].
    - by rewrite lookup_insert_ne.
    - by rewrite lookup_insert_ne.
    - rewrite lookup_insert_eq. by eexists. }
  clear Hi1 Hwf0. apply guarded_returns.
  { unfold set_average_session_length.
    destruct (avg_session_row d user) as [[v|]|e] eqn:E; try done. simpl.
    destruct (truthy v) eqn:Ht; [|done].
    destruct (H2v v eq_refl) as [->|Hv]; [done|].
    by destruct (py_round1_num v Hv) as (w & -> & _). }
  intros i2 Hi2.
  assert (Hwf2 : insights_well_formed i2).
  { revert Hi2. unfold set_average_session_length.
    destruct (avg_session_row d user) as [[v|]|e] eqn:E; simpl;
      try by intros [= <-].
    destruct (truthy v) eqn:Ht; [|by intros [= <-]].
    destruct (H2v v eq_refl) as [->|Hv]; [done|].
    destruct (py_round1_num v Hv) as (w & -> & Hw). simpl. intros [= <-].
    destruct Hwf1 as (Ha & Hb & Hc). split; [|split].
    - exists w. by rewrite lookup_insert_eq.
    - by rewrite lookup_insert_ne.
    - by rewrite lookup_insert_ne. }
  clear Hi2 Hwf1. apply guarded_returns.
  { unfold set_completion_rate.
    destruct (completion_row d user) as [[[c t]|]|e]; try done. simpl.
    by destruct (0 <? t). }
  intros i3 Hi3.
  assert (Hwf3 : insights_well_formed i3).
  { revert Hi3. unfold set_completion_rate.
    destruct (completion_row d user) as [[[c t]|]|e]; simpl; try by intros [= <-].
    destruct (0 <? t); intros [= <-]; [|done].
    destruct Hwf2 as (Ha & Hb & Hc). split; [|split].
    - by rewrite lookup_insert_ne.
    - eexists. rewrite lookup_insert_eq. split; [done|by eexists].
    - by rewrite lookup_insert_ne. }
  clear Hi3 Hwf2. apply guarded_returns.
  { unfold set_top_categories. by destruct (top_categories_rows d user). }
  intros i4 Hi4.
  assert (Hwf4 : insights_well_formed i4).
  { revert Hi4. unfold set_top_categories.
    destruct (top_categories_rows d user); simpl; intros [= <-].
    destruct Hwf3 as (Ha & Hb & Hc). split; [|split]; by rewrite lookup_insert_ne. }
  clear Hi4 Hwf3. apply guarded_returns.
  { unfold set_project_breakdown. by destruct (project_breakdown_rows d user). }
  intros i5 Hi5.
  assert (Hwf5 : insights_well_formed i5).
  { revert Hi5. unfold set_project_breakdown.
    destruct (project_breakdown_rows d user); simpl; intros [= <-].
    destruct Hwf4 as (Ha & Hb & Hc). split; [|split]; by rewrite lookup_insert_ne. }
  clear Hi5 Hwf4.
  destruct (set_improvement_suggestions_returns i5 Hwf5) as [r Hr].
  apply guarded_returns; [by rewrite Hr|]. intros i6 _. eauto.
Qed.




(** With no task at all the rate stays at its initial 0. *)
Example completion_rate_no_tasks :
  get_productivity_insights (sample_database [] PNone (0, 0)) 1
    ≫= (fun insights => subscript insights "completion_rate") = Ok (PInt 0).
Proof. reflexivity. Qed.

(** [get_task_completion_rate] does not round: it returns the exact
    percentage, capped at 100, and 0 without tasks or on any error. *)
Lemma get_task_completion_rate_exact (d : database) (user : Z)
    (completed total : Z) :
  completion_row d user = Ok (Some (completed, total)) ->
  get_task_completion_rate d user =
    if 0 <? total
    then PNum (Qmin 100 (inject_Z completed / inject_Z total * 100))
    else PInt 0.
Proof.
  unfold get_task_completion_rate. intros ->. simpl. by destruct (0 <? total).
Qed.

(** The insights never carry productive hours: the scheduler always
    falls back on its default list. *)
Lemma insights_without_productive_hours (d : database) (user : Z) (insights : dict) :
  get_productivity_insights d user = Ok insights ->
  productive_hours_of insights = Ok default_productive_hours.
Proof.
  intros H. unfold productive_hours_of.
  assert (Hnone : insights !! "most_productive_hours" = None); [|by rewrite Hnone].
  unfold get_productivity_insights in H.
  assert (H0 : initial_insights !! "most_productive_hours" = None) by reflexivity.
  revert H0 H. generalize initial_insights. intros i0 H0 H.
  apply guarded_cases in H as [[-> _]|(i1 & H1 & H)]; [done|].
  assert (Hi1 : i1 !! "most_productive_hours" = None).
  { revert H1. unfold set_most_productive_time.
    destruct (time_analysis_row d user) as [[h|]|e]; simpl; intros [= <-];
      [by rewrite lookup_insert_ne|done]. }
  apply guarded_cases in H as [[-> _]|(i2 & H2 & H)]; [done|].
  assert (Hi2 : i2 !! "most_productive_hours" = None).
  { revert H2. unfold set_average_session_length.
    destruct (avg_session_row d user) as [[v|]|e]; simpl; try by intros [= <-].
    destruct (truthy v); [|by intros [= <-]].
    destruct (py_round1 v); simpl; intros [= <-]. by rewrite lookup_insert_ne. }
  apply guarded_cases in H as [[-> _]|(i3 & H3 & H)]; [done|].
  assert (Hi3 : i3 !! "most_productive_hours" = None).
  { revert H3. unfold set_completion_rate.
    destruct (completion_row d user) as [[[c t]|]|e]; simpl; try by intros [= <-].
    destruct (0 <? t); intros [= <-]; [by rewrite lookup_insert_ne|done]. }
  apply guarded_cases in H as [[-> _]|(i4 & H4 & H)]; [done|].
  assert (Hi4 : i4 !! "most_productive_hours" = None).
  { revert H4. unfold set_top_categories.
    destruct (top_categories_rows d user); simpl; intros [= <-].
    by rewrite lookup_insert_ne. }
  apply guarded_cases in H as [[-> _]|(i5 & H5 & H)]; [done|].
  assert (Hi5 : i5 !! "most_productive_hours" = None).
  { revert H5. unfold set_project_breakdown.
    destruct (project_breakdown_rows d user); simpl; intros [= <-].
    by rewrite lookup_insert_ne. }
  apply guarded_cases in H as [[-> _]|(i6 & H6 & H)]; [done|].
  injection H as <-. unfold set_improvement_suggestions in H6. inv_bind H6.
  injection H6 as <-. by rewrite lookup_insert_ne.
Qed.

(** ** DurationEstimator: defaults of the scheduler *)

(** The dict literal of the code and the table of the specification
    agree on every label. *)
Lemma default_durations_table (label : string) :
  default 60 (default_durations !! label) = spec_default_minutes label.
Proof.
  unfold spec_default_minutes, default_durations.
  repeat match goal with
         | |- context [String.eqb label ?s] =>
             destruct (String.eqb_spec label s) as [->|?]; [reflexivity|]
         end.
  rewrite !lookup_insert_ne by congruence.
  destruct (decide (label = "other")) as [->|?]; [reflexivity|].
  rewrite lookup_insert_ne by congruence. by rewrite lookup_empty.
Qed.

Lemma default_hours_table :
  default_hours "coding" = 2%Q /\ default_hours "design" = (3 # 2)%Q /\
  default_hours "planning" = 1%Q /\ default_hours "testing" = (4 # 5)%Q /\
  default_hours "documentation" = 1%Q /\ default_hours "meeting" = (1 # 2)%Q /\
  default_hours "other" = 1%Q.
Proof. repeat split; reflexivity. Qed.

(** An unknown category id, like no category id at all, is treated as
    ["other"]. *)
Lemma lookup_category_name_unknown (self : scheduler) (category_id : pyval) :
  truthy category_id = false \/
  execute_query (connected self) (category_name_rows (db self) category_id)
    = Ok None \/
  execute_query (connected self) (category_name_rows (db self) category_id)
    = Ok (Some []) ->
  lookup_category_name self category_id = Ok (PStr "other").
Proof.
  unfold lookup_category_name. intros [->|[H|H]]; [done|..];
    destruct (truthy category_id); try done; by rewrite H.
Qed.

(** C8 (amended): when the category has no historical average,
    [predict_task_duration] returns the default of the category's label,
    whatever its letter case, converted to hours and rounded to one
    decimal (coding 2.0, design 1.5, planning 1.0, testing 0.8,
    documentation 1.0, meeting 0.5, other 1.0), with confidence 70.0 and
    method "Historical Average"; a label outside the table counts as
    [other]. *)
Theorem predict_default_duration (self : scheduler)
    (task_name description category_id : pyval) (label : string)
    (result : option (list pyval)) :
  lookup_category_name self category_id = Ok (PStr label) ->
  execute_query (connected self)
    (category_average_rows (db self) category_id (user_id self)) = Ok result ->
  no_average result = true ->
  let prediction := predict_task_duration self task_name description category_id in
  prediction = estimate_dict (default_hours (string_lower label)) /\
  prediction !! "duration" = Some (PNum (default_hours (string_lower label))) /\
  prediction !! "confidence" = Some (PNum 70) /\
  prediction !! "method" = Some (PStr "Historical Average").
Proof.
  intros Hname Havg Hno prediction.
  assert (Heq : prediction = estimate_dict (default_hours (string_lower label))).
  { unfold prediction, predict_task_duration, predict_task_duration_body.
    rewrite Hname, bind_Ok, Havg, bind_Ok.
    assert (Hdur : match result with
                   | Some (avg :: _) =>
                       if truthy avg then Ok avg else default_duration (PStr label)
                   | _ => default_duration (PStr label)
                   end = Ok (PInt (spec_default_minutes (string_lower label)))).
    { unfold default_duration. cbn [py_lower]. rewrite bind_Ok, default_durations_table.
      destruct result as [[|avg rest]|]; try done.
      cbn in Hno. apply negb_true_iff in Hno. by rewrite Hno. }
    rewrite Hdur, bind_Ok. reflexivity. }
  split; [exact Heq|]. clearbody prediction. subst prediction.
  unfold estimate_dict.
  split; [by rewrite lookup_insert_eq|].
  split; [rewrite lookup_insert_ne by done; by rewrite lookup_insert_eq|].
  rewrite !lookup_insert_ne by done. by rewrite lookup_insert_eq.
Qed.

Lemma predict_default_duration_witness :
  predict_task_duration sample_scheduler (PStr "Write tests") (PStr "") (PInt 3)
    !! "duration" = Some (PNum (default_hours "testing")).
Proof.
  apply (predict_default_duration sample_scheduler (PStr "Write tests") (PStr "")
           (PInt 3) "testing" (Some [PNone])); reflexivity.
Defined.

(** "Write tests" in category 3 (testing), no similar task and no
    category average: the scheduler's estimate is 0.8 hours with
    confidence 70.0, the analytics estimate is 0 with confidence low;
    neither is 45 minutes with confidence low. *)
Lemma testing_default_not_45_low :
  let prediction :=
    predict_task_duration sample_scheduler (PStr "Write tests") (PStr "") (PInt 3) in
  prediction !! "duration" = Some (PNum (4 # 5)) /\
  prediction !! "confidence" = Some (PNum 70) /\
  ~ (prediction !! "duration" ≫= num_of = Some 45%Q /\
     prediction !! "confidence" = Some (PStr "low")) /\
  get_smart_scheduling_suggestion (db sample_scheduler) 1 (PStr "Write tests") (PInt 3)
    = Ok (mk_suggestion (PInt 0) "low" [] []).
Proof.
  split; [reflexivity|]. split; [reflexivity|]. split; [|reflexivity].
  intros [H _]. discriminate H.
Qed.

(** A category id that is not in the table of categories: one hour. *)
Example predict_unknown_category :
  predict_task_duration sample_scheduler (PStr "Write tests") (PStr "") (PInt 42)
    = estimate_dict 1.
Proof. reflexivity. Qed.

(** When the estimator's query raises, the estimate is the fallback of
    one hour with confidence 50.0. *)
Example predict_fallback :
  predict_task_duration failing_estimator_scheduler
    (PStr "Write tests") (PStr "") (PInt 3) = fallback_estimate.
Proof. reflexivity. Qed.

(** ** ScheduleBuilder: what the repository's estimator gives it *)

Lemma predict_task_duration_body_shape self category_id r :
  predict_task_duration_body self category_id = Ok r ->
  exists hours, r = estimate_dict hours.
Proof.
  unfold predict_task_duration_body. intros H. inv_bind H.
  injection H as <-. eauto.
Qed.

Lemma predict_task_duration_shape self name description category_id :
  predict_task_duration self name description category_id = fallback_estimate \/
  exists hours,
    predict_task_duration self name description category_id = estimate_dict hours.
Proof.
  unfold predict_task_duration, catch_all.
  destruct (predict_task_duration_body self category_id) as [r|e] eqn:E; [|by left].
  right. by apply predict_task_duration_body_shape in E.
Qed.

(** The estimate has a ["duration"] and no ["predicted_duration"]. *)
Lemma predict_task_duration_keys self name description category_id :
  let prediction := predict_task_duration self name description category_id in
  prediction !! "predicted_duration" = None /\ is_Some (prediction !! "duration").
Proof.
  destruct (predict_task_duration_shape self name description category_id)
    as [->|[h ->]].
  - split; [reflexivity|]. eexists. reflexivity.
  - unfold estimate_dict. split.
    + rewrite !lookup_insert_ne by done. by rewrite lookup_empty.
    + rewrite lookup_insert_eq. eauto.
Qed.

Lemma place_task_key_error self hours i task earlier cur :
  is_Some (task !! "name") ->
  place_task
    (fun name description category_id =>
       Ok (predict_task_duration self name description category_id))
    hours i task earlier cur = Raise (KeyError "predicted_duration").
Proof.
  intros [name Hname]. unfold place_task.
  rewrite (subscript_Some _ _ _ Hname), !bind_Ok.
  destruct (predict_task_duration_keys self name
              (get task "description") (get task "category_id")) as [Hnone _].
  by rewrite (subscript_None _ _ Hnone).
Qed.

(** C2: for every non-empty list of tasks [create_smart_schedule]
    returns the empty list: the estimate of [predict_task_duration] has a
    key ["duration"] and no key ["predicted_duration"], so the first
    iteration that gets to read it raises [KeyError], which the handler of
    the whole batch turns into [[]]. *)
Theorem create_smart_schedule_empty (self : scheduler) (tasks : list dict) :
  tasks <> [] ->
  create_smart_schedule self tasks = [] /\
  (forall name description category_id,
     subscript (predict_task_duration self name description category_id)
       "predicted_duration" = Raise (KeyError "predicted_duration") /\
     is_Some (predict_task_duration self name description category_id
                !! "duration")) /\
  (forall hours i task rest earlier cur,
     is_Some (task !! "name") ->
     schedule_loop
       (fun name description category_id =>
          Ok (predict_task_duration self name description category_id))
       hours i (task :: rest) earlier cur = Raise (KeyError "predicted_duration")).
Proof.
  intros Hne. split; [|split].
  - unfold create_smart_schedule, create_smart_schedule_with, catch_all.
    destruct (scheduler_insights self) as [insights|]; simpl; [|done].
    destruct (productive_hours_of insights) as [hours|]; simpl; [|done].
    destruct tasks as [|task rest]; [done|]. cbn [schedule_loop].
    destruct (task !! "name") as [name|] eqn:Hname.
    + rewrite place_task_key_error; [done|by eexists].
    + unfold place_task. by rewrite (subscript_None _ _ Hname).
  - intros name description category_id.
    destruct (predict_task_duration_keys self name description category_id)
      as [Hnone Hsome].
    split; [|done]. by apply subscript_None.
  - intros. cbn [schedule_loop]. by rewrite place_task_key_error.
Qed.

Lemma create_smart_schedule_empty_witness :
  create_smart_schedule sample_scheduler [write_tests_task] = [].
Proof.
  apply (create_smart_schedule_empty sample_scheduler [write_tests_task]).
  discriminate.
Defined.

(** C1: a healthy database, one task: the estimator answers (0.8 hours)
    and yet nothing is placed; with an estimator whose query raises, the
    fallback of one hour is produced and nothing is placed either, where
    the specification asks for a one-hour placement. *)
Theorem create_smart_schedule_drops_tasks :
  predict_task_duration sample_scheduler (PStr "Write tests") (PStr "") (PInt 3)
    = estimate_dict (4 # 5) /\
  create_smart_schedule sample_scheduler [write_tests_task] = [] /\
  predict_task_duration failing_estimator_scheduler
    (PStr "Write tests") (PStr "") (PInt 3) = fallback_estimate /\
  create_smart_schedule failing_estimator_scheduler [write_tests_task] = [] /\
  length (create_smart_schedule failing_estimator_scheduler [write_tests_task])
    <> length [write_tests_task].
Proof. repeat split; try reflexivity. discriminate. Qed.

(** No exception leaves [create_smart_schedule]: it is a total function
    into lists, and without an analytics object it also answers [[]]. *)
Lemma create_smart_schedule_no_analytics (self : scheduler) (tasks : list dict) :
  has_analytics self = false -> create_smart_schedule self tasks = [].
Proof.
  intros H. unfold create_smart_schedule, create_smart_schedule_with,
    scheduler_insights. by rewrite H.
Qed.

(** ** ScheduleBuilder: placement *)

Lemma dt_add_us t us r : dt_add t us = Ok r -> dt_us r = dt_us t + us.
Proof. unfold dt_add. destruct (dt_valid _); [|done]. by intros [= <-]. Qed.

Lemma calculate_break_duration_step dur b :
  calculate_break_duration dur = Ok b ->
  exists minutes, num_of dur = Some minutes /\ b = break_for minutes.
Proof.
  unfold calculate_break_duration, break_for. intros H.
  apply bind_inv in H as (le30 & H30 & H).
  apply py_le_num in H30 as (q & Hq & ->). exists q. split; [done|].
  change (inject_Z 30) with 30%Q in *.
  destruct (Qle_bool q 30); [by injection H as <-|].
  apply bind_inv in H as (le60 & H60 & H).
  apply py_le_num in H60 as (q' & Hq' & ->). rewrite Hq in Hq'. injection Hq' as <-.
  change (inject_Z 60) with 60%Q in *.
  destruct (Qle_bool q 60); [by injection H as <-|].
  apply bind_inv in H as (le120 & H120 & H).
  apply py_le_num in H120 as (q' & Hq' & ->). rewrite Hq in Hq'. injection Hq' as <-.
  change (inject_Z 120) with 120%Q in *.
  destruct (Qle_bool q 120); by injection H as <-.
Qed.

Lemma break_for_range minutes : 5 <= break_for minutes <= 20.
Proof. unfold break_for. repeat destruct (Qle_bool _ _); lia. Qed.

(** The ladder itself, on a number of minutes. *)
Lemma break_for_ladder (minutes : Q) :
  ((minutes <= 30)%Q -> break_for minutes = 5) /\
  ((30 < minutes <= 60)%Q -> break_for minutes = 10) /\
  ((60 < minutes <= 120)%Q -> break_for minutes = 15) /\
  ((120 < minutes)%Q -> break_for minutes = 20).
Proof.
  unfold break_for.
  destruct (Qle_bool minutes 30) eqn:E30;
    [apply Qle_bool_iff in E30 | apply Qle_bool_false in E30];
  (destruct (Qle_bool minutes 60) eqn:E60;
    [apply Qle_bool_iff in E60 | apply Qle_bool_false in E60]);
  (destruct (Qle_bool minutes 120) eqn:E120;
    [apply Qle_bool_iff in E120 | apply Qle_bool_false in E120]);
  repeat split; intros; try reflexivity; lra.
Qed.

Section Placement.

Variable hours : list Z.

(** After the conflict scan the start is not earlier than it was, nor
    than the end of any task already placed. *)
Lemma resolve_conflicts_after existing :
  forall start result,
  resolve_conflicts existing start = Ok result ->
  dt_us start <= dt_us result /\
  forall x, x ∈ existing ->
    exists e, task_end x = Ok e /\ dt_us e <= dt_us result.
Proof.
  induction existing as [|task rest IH]; intros start result H.
  - injection H as <-. split; [lia|]. intros x Hx. by apply elem_of_nil in Hx.
  - cbn [resolve_conflicts] in H.
    apply bind_inv in H as (e & He & H). apply bind_inv in H as (start' & Hs & H).
    apply IH in H as [Hle Hrest].
    assert (dt_us start <= dt_us start' /\ dt_us e <= dt_us start') as [H1 H2].
    { unfold dt_ltb in Hs. destruct (dt_us start <? dt_us e) eqn:E.
      - apply Z.ltb_lt in E. apply dt_add_us in Hs.
        unfold us_per_minute in Hs. lia.
      - apply Z.ltb_ge in E. injection Hs as <-. lia. }
    split; [lia|]. intros x Hx. apply elem_of_cons in Hx as [->|Hx].
    + exists e. split; [done|lia].
    + by apply Hrest.
Qed.

Lemma find_optimal_start_time_after cur dur existing result :
  find_optimal_start_time cur dur hours existing = Ok result ->
  forall x, x ∈ existing ->
    exists e, task_end x = Ok e /\ dt_us e <= dt_us result.
Proof.
  unfold find_optimal_start_time. intros H.
  apply bind_inv in H as (start & _ & H).
  by apply resolve_conflicts_after in H as [_ H].
Qed.

Variable predict : predictor.

Lemma place_task_placed i task earlier cur t cur' :
  place_task predict hours i task earlier cur = Ok (t, cur') ->
  task_end t = Ok cur' /\
  match i with
  | O => find_optimal_start_time cur (duration t) hours earlier
         = Ok (start_time t)
  | S _ => exists optimal break_duration,
      find_optimal_start_time cur (duration t) hours earlier = Ok optimal /\
      calculate_break_duration (duration t) = Ok break_duration /\
      dt_add optimal (break_duration * us_per_minute) = Ok (start_time t)
  end.
Proof.
  unfold place_task. intros H.
  apply bind_inv in H as (name & _ & H).
  apply bind_inv in H as (prediction & _ & H).
  apply bind_inv in H as (dur & _ & H).
  apply bind_inv in H as (optimal & Hopt & H).
  apply bind_inv in H as (start & Hstart & H).
  apply bind_inv in H as (conf & _ & H).
  apply bind_inv in H as (d & Hd & H).
  apply bind_inv in H as (cur0 & Hcur & H).
  injection H as <- <-. cbn [duration start_time]. split.
  - unfold task_end. cbn [duration start_time]. by rewrite Hd.
  - destruct i as [|i]; cbn in Hstart.
    + by injection Hstart as <-.
    + apply bind_inv in Hstart as (b & Hb & Hstart). eauto.
Qed.

(** What the loop returns is what it was given followed by one
    placement per task, each made as [placed] says. *)
Lemma schedule_loop_placed tasks :
  forall i earlier cur result,
  schedule_loop predict hours i tasks earlier cur = Ok result ->
  exists added, result = earlier ++ added /\ placed hours i earlier cur added /\
                length added = length tasks.
Proof.
  induction tasks as [|task rest IH]; intros i earlier cur result H.
  - injection H as <-. exists []. rewrite app_nil_r. repeat split. constructor.
  - cbn [schedule_loop] in H. apply bind_inv in H as ([t cur'] & Hplace & H).
    cbn [fst snd] in H. apply IH in H as (added & -> & Hplaced & Hlen).
    apply place_task_placed in Hplace as [Hend Hstart].
    exists (t :: added). rewrite <- app_assoc. split; [done|].
    split; [|simpl; by rewrite Hlen].
    destruct i as [|i].
    + by eapply placed_first.
    + destruct Hstart as (optimal & b & ? & ? & ?). by eapply placed_next.
Qed.

(** Every placement but the very first starts, after every placement
    made before it, later than that one's end by the break computed
    from its own duration. *)
Lemma placed_gap i earlier cur added :
  placed hours i earlier cur added ->
  forall pre t post, added = pre ++ t :: post ->
  (0 < i + length pre)%nat ->
  forall x, x ∈ earlier ++ pre ->
  exists e b, task_end x = Ok e /\
              calculate_break_duration (duration t) = Ok b /\
              dt_us e + b * us_per_minute <= dt_us (start_time t).
Proof.
  induction 1 as [i earlier cur
                 |earlier cur t0 rest cur' Hopt Hend Hrest IH
                 |i earlier cur t0 rest optimal b cur' Hopt Hb Hadd Hend Hrest IH];
    intros pre t post Heq Hpos x Hx.
  - by destruct pre.
  - destruct pre as [|p pre]; [simpl in Hpos; lia|].
    injection Heq as <- ->.
    apply (IH pre t post eq_refl); [simpl; lia|].
    rewrite <- app_assoc. done.
  - destruct pre as [|p pre].
    + injection Heq as <- ->. rewrite app_nil_r in Hx.
      destruct (find_optimal_start_time_after _ _ _ _ Hopt x Hx) as (e & He & Hle).
      exists e, b. split; [done|]. split; [done|]. apply dt_add_us in Hadd. lia.
    + injection Heq as <- ->.
      apply (IH pre t post eq_refl); [simpl; lia|].
      rewrite <- app_assoc. done.
Qed.

(** For two consecutive placements: the later one starts at the
    optimal start computed from the end of the earlier one, plus the
    break computed from its own duration. *)
Lemma placed_pair i earlier cur added :
  placed hours i earlier cur added ->
  forall pre p t post, added = pre ++ p :: t :: post ->
  exists e optimal b,
    task_end p = Ok e /\
    find_optimal_start_time e (duration t) hours (earlier ++ pre ++ [p])
      = Ok optimal /\
    calculate_break_duration (duration t) = Ok b /\
    dt_add optimal (b * us_per_minute) = Ok (start_time t).
Proof.
  induction 1 as [i earlier cur
                 |earlier cur t0 rest cur' Hopt Hend Hrest IH
                 |i earlier cur t0 rest optimal b cur' Hopt Hb Hadd Hend Hrest IH];
    intros pre p t post Heq.
  - by destruct pre.
  - destruct pre as [|p0 pre].
    + injection Heq as <- ->. inversion Hrest; subst. rewrite app_nil_l. eauto 10.
    + injection Heq as <- ->.
      destruct (IH pre p t post eq_refl) as (e & o & b & ? & Ho & ? & ?).
      rewrite <- app_assoc in Ho. eauto 10.
  - destruct pre as [|p0 pre].
    + injection Heq as <- ->. inversion Hrest; subst. rewrite app_nil_l. eauto 10.
    + injection Heq as <- ->.
      destruct (IH pre p t post eq_refl) as (e & o & b' & ? & Ho & ? & ?).
      rewrite <- app_assoc in Ho. eauto 10.
Qed.

End Placement.

(** A non-empty answer of [create_smart_schedule_with] comes from a run
    of the loop that raised nothing. *)
Lemma create_smart_schedule_with_placed now get_insights predict tasks result :
  create_smart_schedule_with now get_insights predict tasks = result ->
  result <> [] ->
  exists insights hours,
    get_insights = Ok insights /\ productive_hours_of insights = Ok hours /\
    placed hours 0 [] now result /\ length result = length tasks.
Proof.
  unfold create_smart_schedule_with, catch_all. intros H Hne.
  destruct get_insights as [insights|e]; [|by subst].
  rewrite bind_Ok in H.
  destruct (productive_hours_of insights) as [hours|e] eqn:Eh; [|by subst].
  rewrite bind_Ok in H.
  destruct (schedule_loop predict hours 0 tasks [] now) as [r|e] eqn:E; [|by subst].
  subst r. apply schedule_loop_placed in E as (added & -> & Hplaced & Hlen).
  exists insights, hours. simpl. by repeat split.
Qed.

(** ** ScheduleBuilder: the scenario of the specification *)

Lemma datetime_of_fields day h m :
  0 <= h < 24 -> 0 <= m < 60 ->
  dt_ordinal (datetime_of day h m) = day /\ dt_hour (datetime_of day h m) = h.
Proof.
  intros Hh Hm.
  unfold dt_ordinal, dt_hour, datetime_of, dt_us, us_per_day, us_per_hour,
    us_per_minute.
  split; Z.to_euclidean_division_equations; lia.
Qed.

Lemma dt_add_minutes day h m k h' m' :
  1 <= day <= max_ordinal -> 0 <= h' < 24 -> 0 <= m' < 60 ->
  h * 60 + m + k = h' * 60 + m' ->
  dt_add (datetime_of day h m) (k * us_per_minute) = Ok (datetime_of day h' m').
Proof.
  intros Hday Hh Hm Heq. unfold dt_add.
  assert (E : mk_datetime (dt_us (datetime_of day h m) + k * us_per_minute)
              = datetime_of day h' m').
  { unfold datetime_of. cbn [dt_us]. f_equal. unfold us_per_hour.
    assert (m' = h * 60 + m + k - h' * 60) as -> by lia. ring. }
  rewrite E. unfold dt_valid.
  destruct (datetime_of_fields day h' m' Hh Hm) as [-> _].
  destruct (Z.leb_spec 1 day), (Z.leb_spec day max_ordinal); try lia. reflexivity.
Qed.

Lemma dt_replace_hour_of day h m h' :
  0 <= h < 24 -> 0 <= m < 60 -> 0 <= h' < 24 ->
  dt_replace_hour (datetime_of day h m) h' = Ok (datetime_of day h' 0).
Proof.
  intros Hh Hm Hh'. unfold dt_replace_hour.
  destruct (datetime_of_fields day h m Hh Hm) as [-> _].
  destruct (Z.leb_spec 0 h'), (Z.leb_spec h' 23); try lia. cbn [andb].
  unfold datetime_of. do 2 f_equal. ring.
Qed.

Lemma place_task_fixed minutes hours i name earlier cur :
  place_task (fixed_estimate minutes) hours i (named_task name) earlier cur =
  (start ← find_optimal_start_time cur (PInt minutes) hours earlier;
   start ← (if (0 <? i)%nat
             then break_duration ← calculate_break_duration (PInt minutes);
                  dt_add start (break_duration * us_per_minute)
             else Ok start);
   end_time ← dt_add start (minutes * us_per_minute);
   Ok (placement name start minutes, end_time)).
Proof. reflexivity. Qed.

(** C3 (amended): productive hours 9 and 14, reference time 08:00 on any
    day, two tasks estimated at 60 minutes each: the first is placed from
    09:00 to 10:00; for the second the cursor 10:00 is outside the
    productive hours, so the start moves to 14:00, and the 10-minute break
    is then added: it is placed at 14:10. *)
Theorem scenario_two_tasks (day : Z) :
  1 <= day <= max_ordinal ->
  create_smart_schedule_with (datetime_of day 8 0) (Ok insights_9_14)
    (fixed_estimate 60) [named_task "task1"; named_task "task2"]
  = [placement "task1" (datetime_of day 9 0) 60;
     placement "task2" (datetime_of day 14 10) 60] /\
  task_end (placement "task1" (datetime_of day 9 0) 60) = Ok (datetime_of day 10 0) /\
  find_optimal_start_time (datetime_of day 10 0) (PInt 60) [9; 14]
    [placement "task1" (datetime_of day 9 0) 60] = Ok (datetime_of day 14 0).
Proof.
  intros Hday.
  assert (Hend : task_end (placement "task1" (datetime_of day 9 0) 60)
                 = Ok (datetime_of day 10 0)).
  { unfold task_end. cbn [duration start_time placement timedelta_minutes].
    rewrite bind_Ok. by apply dt_add_minutes. }
  assert (Hlt : dt_ltb (datetime_of day 14 0) (datetime_of day 10 0) = false).
  { unfold dt_ltb, datetime_of, us_per_hour, us_per_minute. cbn [dt_us].
    apply Z.ltb_ge. lia. }
  destruct (datetime_of_fields day 8 0) as [_ H8]; [lia..|].
  destruct (datetime_of_fields day 10 0) as [_ H10]; [lia..|].
  assert (Hopt : find_optimal_start_time (datetime_of day 10 0) (PInt 60) [9; 14]
                   [placement "task1" (datetime_of day 9 0) 60]
                 = Ok (datetime_of day 14 0)).
  { unfold find_optimal_start_time. rewrite H10.
    cbn [existsb Z.eqb Pos.eqb orb next_productive_hour List.find Z.ltb
         Z.compare Pos.compare Pos.compare_cont].
    rewrite (dt_replace_hour_of day 10 0 14) by lia. rewrite bind_Ok.
    cbn [resolve_conflicts]. by rewrite Hend, bind_Ok, Hlt, !bind_Ok. }
  split; [|by split].
  unfold create_smart_schedule_with. rewrite bind_Ok.
  change (productive_hours_of insights_9_14) with (Ok [9; 14] : outcome (list Z)).
  rewrite bind_Ok. cbn [schedule_loop]. rewrite place_task_fixed.
  (* first task *)
  unfold find_optimal_start_time at 1. rewrite H8.
  cbn [existsb Z.eqb Pos.eqb orb next_productive_hour List.find Z.ltb
       Z.compare Pos.compare Pos.compare_cont].
  rewrite (dt_replace_hour_of day 8 0 9) by lia. rewrite bind_Ok.
  cbn [resolve_conflicts]. rewrite bind_Ok. cbn [Nat.ltb Nat.leb]. rewrite bind_Ok.
  rewrite (dt_add_minutes day 9 0 60 10 0) by lia. rewrite !bind_Ok.
  cbn [fst snd app].
  (* second task *)
  rewrite place_task_fixed, Hopt, bind_Ok. cbn [Nat.ltb Nat.leb].
  change (calculate_break_duration (PInt 60)) with (Ok 10 : outcome Z).
  rewrite bind_Ok.
  rewrite (dt_add_minutes day 14 0 10 14 10) by lia. rewrite bind_Ok.
  rewrite (dt_add_minutes day 14 10 60 15 10) by lia. rewrite !bind_Ok.
  reflexivity.
Qed.

Lemma scenario_two_tasks_witness :
  create_smart_schedule_with (datetime_of sample_day 8 0) (Ok insights_9_14)
    (fixed_estimate 60) [named_task "task1"; named_task "task2"]
  = [placement "task1" (datetime_of sample_day 9 0) 60;
     placement "task2" (datetime_of sample_day 14 10) 60].
Proof.
  apply (scenario_two_tasks sample_day). unfold sample_day, max_ordinal. lia.
Defined.

(** In that scenario the second task does not start at 14:00. *)
Lemma scenario_second_start_not_14 :
  ~ exists t1 t2,
      create_smart_schedule_with (datetime_of sample_day 8 0) (Ok insights_9_14)
        (fixed_estimate 60) [named_task "task1"; named_task "task2"] = [t1; t2] /\
      start_time t1 = datetime_of sample_day 9 0 /\
      task_end t1 = Ok (datetime_of sample_day 10 0) /\
      start_time t2 = datetime_of sample_day 14 0.
Proof.
  intros (t1 & t2 & H & _ & _ & H2). vm_compute in H.
  injection H as <- <-. vm_compute in H2. discriminate H2.
Qed.

(** ** ScheduleBuilder: breaks and separation *)

(** C4 (amended): every task placed after another one in a call starts
    at the optimal start computed from the end of its predecessor plus a
    break that is a step function of its own estimated duration (up to 30
    minutes: 5, up to 60: 10, up to 120: 15, longer: 20), not of the
    previous task's. *)
Theorem break_from_own_duration (now : datetime) (get_insights : outcome dict)
    (predict : predictor) (tasks : list dict)
    (pre : list scheduled_task) (p t : scheduled_task) (post : list scheduled_task) :
  create_smart_schedule_with now get_insights predict tasks
    = pre ++ p :: t :: post ->
  exists insights hours e optimal minutes,
    get_insights = Ok insights /\ productive_hours_of insights = Ok hours /\
    task_end p = Ok e /\
    find_optimal_start_time e (duration t) hours (pre ++ [p]) = Ok optimal /\
    num_of (duration t) = Some minutes /\
    dt_us (start_time t) = dt_us optimal + break_for minutes * us_per_minute /\
    ((minutes <= 30)%Q -> break_for minutes = 5) /\
    ((30 < minutes <= 60)%Q -> break_for minutes = 10) /\
    ((60 < minutes <= 120)%Q -> break_for minutes = 15) /\
    ((120 < minutes)%Q -> break_for minutes = 20).
Proof.
  intros H.
  apply create_smart_schedule_with_placed in H
    as (insights & hours & Hins & Hhours & Hplaced & _); [|by destruct pre].
  destruct (placed_pair _ _ _ _ _ Hplaced pre p t post eq_refl)
    as (e & optimal & b & He & Hopt & Hb & Hadd).
  apply calculate_break_duration_step in Hb as (minutes & Hnum & ->).
  apply dt_add_us in Hadd.
  exists insights, hours, e, optimal, minutes.
  repeat (split; [done|]). apply break_for_ladder.
Qed.

Lemma break_from_own_duration_witness :
  exists optimal,
    find_optimal_start_time (datetime_of sample_day 9 30) (PInt 200)
      default_productive_hours [placement "short" (datetime_of sample_day 9 0) 30]
      = Ok optimal /\
    dt_us (datetime_of sample_day 9 50)
      = dt_us optimal + break_for 200 * us_per_minute.
Proof.
  destruct (break_from_own_duration (datetime_of sample_day 9 0)
              (Ok initial_insights) (estimate_by_name minutes_by_name)
              [named_task "short"; named_task "long"] []
              (placement "short" (datetime_of sample_day 9 0) 30)
              (placement "long" (datetime_of sample_day 9 50) 200) [] eq_refl)
    as (insights & hours & e & optimal & minutes & Hins & Hhours & He & Hopt
        & Hnum & Hstart & _).
  injection Hins as <-. injection Hhours as <-. injection He as <-.
  injection Hnum as <-. exists optimal. split; [exact Hopt|exact Hstart].
Defined.

(** A 30-minute task followed by a 200-minute one: the break before the
    second is 20 minutes, the step of its own duration; the step of the
    previous task's duration would be 5. *)
Lemma break_not_from_previous :
  create_smart_schedule_with (datetime_of sample_day 9 0) (Ok initial_insights)
    (estimate_by_name minutes_by_name) [named_task "short"; named_task "long"]
  = [placement "short" (datetime_of sample_day 9 0) 30;
     placement "long" (datetime_of sample_day 9 50) 200] /\
  task_end (placement "short" (datetime_of sample_day 9 0) 30)
    = Ok (datetime_of sample_day 9 30) /\
  find_optimal_start_time (datetime_of sample_day 9 30) (PInt 200)
    default_productive_hours [placement "short" (datetime_of sample_day 9 0) 30]
    = Ok (datetime_of sample_day 9 30) /\
  calculate_break_duration (PInt 30) = Ok 5 /\
  dt_us (datetime_of sample_day 9 50)
    <> dt_us (datetime_of sample_day 9 30) + 5 * us_per_minute.
Proof. repeat split; try reflexivity. vm_compute. discriminate. Qed.

(** C5 (amended): in the schedule of one call no two placements overlap,
    and every placement made after another one starts later than that
    one's end by at least the break computed from its own duration, which
    is at least 5 minutes. *)
Theorem schedule_separated (now : datetime) (get_insights : outcome dict)
    (predict : predictor) (tasks : list dict)
    (pre : list scheduled_task) (p : scheduled_task) (mid : list scheduled_task)
    (t : scheduled_task) (post : list scheduled_task) :
  create_smart_schedule_with now get_insights predict tasks
    = pre ++ p :: mid ++ t :: post ->
  ~ overlap p t /\ ~ overlap t p /\
  exists e minutes,
    task_end p = Ok e /\ num_of (duration t) = Some minutes /\
    5 <= break_for minutes /\
    dt_us e + break_for minutes * us_per_minute <= dt_us (start_time t).
Proof.
  intros H.
  apply create_smart_schedule_with_placed in H
    as (insights & hours & _ & _ & Hplaced & _); [|by destruct pre].
  destruct (placed_gap _ _ _ _ _ Hplaced (pre ++ p :: mid) t post) with (x := p)
    as (e & b & He & Hb & Hgap).
  { by rewrite <- app_assoc. }
  { rewrite length_app. simpl. lia. }
  { rewrite app_nil_l. apply elem_of_app. right. apply elem_of_cons. by left. }
  apply calculate_break_duration_step in Hb as (minutes & Hnum & ->).
  pose proof (break_for_range minutes) as Hrange.
  assert (Hlt : dt_us e < dt_us (start_time t)) by (unfold us_per_minute in *; lia).
  split; [|split].
  - intros (ea & eb & x & Hea & _ & Hx1 & Hx2). rewrite He in Hea.
    injection Hea as <-. lia.
  - intros (ea & eb & x & _ & Heb & Hx1 & Hx2). rewrite He in Heb.
    injection Heb as <-. lia.
  - exists e, minutes. repeat split; try done. lia.
Qed.

Lemma schedule_separated_witness :
  ~ overlap (placement "review" (datetime_of sample_day 9 0) 130)
            (placement "note" (datetime_of sample_day 11 15) 10).
Proof.
  apply (schedule_separated (datetime_of sample_day 9 0) (Ok initial_insights)
           (estimate_by_name minutes_by_name)
           [named_task "review"; named_task "note"] []
           (placement "review" (datetime_of sample_day 9 0) 130) []
           (placement "note" (datetime_of sample_day 11 15) 10) [] eq_refl).
Defined.

(** A 130-minute task followed by a 10-minute one: the second starts 5
    minutes after the first ends, less than the 20-minute break that goes
    with the first task's duration. *)
Lemma gap_below_predecessor_break :
  create_smart_schedule_with (datetime_of sample_day 9 0) (Ok initial_insights)
    (estimate_by_name minutes_by_name) [named_task "review"; named_task "note"]
  = [placement "review" (datetime_of sample_day 9 0) 130;
     placement "note" (datetime_of sample_day 11 15) 10] /\
  task_end (placement "review" (datetime_of sample_day 9 0) 130)
    = Ok (datetime_of sample_day 11 10) /\
  calculate_break_duration (PInt 130) = Ok 20 /\
  dt_us (datetime_of sample_day 11 15) - dt_us (datetime_of sample_day 11 10)
    < 20 * us_per_minute.
Proof. repeat split; reflexivity. Qed.

(** * Further properties of the program *)

(** ** Start times *)

Lemma dt_replace_hour_fields t h r :
  dt_replace_hour t h = Ok r ->
  0 <= h <= 23 /\ dt_hour r = h /\ dt_ordinal r = dt_ordinal t /\
  dt_us r = dt_ordinal t * us_per_day + h * us_per_hour.
Proof.
  unfold dt_replace_hour.
  destruct (Z.leb_spec 0 h), (Z.leb_spec h 23); cbn [andb]; try done.
  intros [= <-]. split; [lia|].
  unfold dt_hour, dt_ordinal, us_per_day, us_per_hour, us_per_minute; cbn [dt_us].
  repeat split; Z.to_euclidean_division_equations; lia.
Qed.

Lemma dt_hour_bounds t :
  dt_ordinal t * us_per_day + dt_hour t * us_per_hour <= dt_us t
  < dt_ordinal t * us_per_day + (dt_hour t + 1) * us_per_hour /\
  0 <= dt_hour t <= 23.
Proof.
  unfold dt_hour, dt_ordinal, us_per_day, us_per_hour, us_per_minute.
  Z.to_euclidean_division_equations; lia.
Qed.

Lemma dt_add_day_ordinal t r :
  dt_add t us_per_day = Ok r -> dt_ordinal r = dt_ordinal t + 1.
Proof.
  intros H. apply dt_add_us in H. revert H.
  unfold dt_ordinal, us_per_day, us_per_hour, us_per_minute. intros ->.
  Z.to_euclidean_division_equations; lia.
Qed.

Lemma find_optimal_start_time_base (current_time : datetime) (dur : pyval)
    (hours : list Z) (r : datetime) :
  find_optimal_start_time current_time dur hours [] = Ok r ->
  dt_us current_time <= dt_us r /\
  In (dt_hour r) hours /\
  dt_ordinal current_time <= dt_ordinal r <= dt_ordinal current_time + 1 /\
  (In (dt_hour current_time) hours -> r = current_time) /\
  (~ In (dt_hour current_time) hours ->
     dt_us r = dt_ordinal r * us_per_day + dt_hour r * us_per_hour).
Proof.
  unfold find_optimal_start_time. intros H.
  apply bind_inv in H as (start & Hstart & H). injection H as ->.
  pose proof (dt_hour_bounds current_time) as [Hcur Hh].
  destruct (existsb _ hours) eqn:Ein.
  - injection Hstart as <-. apply existsb_exists in Ein as (h & Hin & Heq).
    apply Z.eqb_eq in Heq. subst h. repeat split; try done; try lia.
  - assert (Hnotin : ~ In (dt_hour current_time) hours).
    { intros Hin. apply not_true_iff_false in Ein. apply Ein.
      apply existsb_exists. exists (dt_hour current_time). split; [done|].
      apply Z.eqb_refl. }
    unfold next_productive_hour in Hstart.
    destruct (List.find _ hours) as [h|] eqn:Efind.
    + apply List.find_some in Efind as [Hin Hlt]. apply Z.ltb_lt in Hlt.
      apply dt_replace_hour_fields in Hstart as (Hr & Hhour & Hord & Hus).
      rewrite Hhour, Hord.
      repeat split; try done; try lia; try (intros _; by rewrite Hus).
      all: rewrite Hus; unfold us_per_hour, us_per_minute in *; lia.
    + apply bind_inv in Hstart as (tomorrow & Htom & Hstart).
      apply bind_inv in Hstart as (h0 & Hfirst & Hstart).
      apply dt_add_day_ordinal in Htom as Hord1.
      apply dt_replace_hour_fields in Hstart as (Hr & Hhour & Hord & Hus).
      rewrite Hhour, Hord, Hord1. 
      assert (In h0 hours).
      { destruct hours as [|h hs]; [done|]. injection Hfirst as <-. by left. }
      repeat split; try done; try lia; try (intros _; by rewrite Hus).
      all: rewrite Hus, Hord1; unfold us_per_day, us_per_hour, us_per_minute in *; lia.
Qed.

(** With nothing scheduled yet, [_find_optimal_start_time] never answers
    a time before the current one; the hour of its answer is one of the
    productive hours, on the same day or the next; a current time whose
    hour is productive is kept as it is, minutes included, and any other
    is moved to the start of a productive hour. *)
Theorem find_optimal_start_time_free (current_time : datetime) (dur : pyval)
    (hours : list Z) (r : datetime) :
  find_optimal_start_time current_time dur hours [] = Ok r ->
  dt_us current_time <= dt_us r /\
  In (dt_hour r) hours /\
  dt_ordinal current_time <= dt_ordinal r <= dt_ordinal current_time + 1 /\
  (In (dt_hour current_time) hours -> r = current_time) /\
  (~ In (dt_hour current_time) hours ->
     dt_us r = dt_ordinal r * us_per_day + dt_hour r * us_per_hour).
Proof. apply find_optimal_start_time_base. Qed.

Lemma find_optimal_start_time_free_witness :
  In (dt_hour (datetime_of sample_day 9 0)) default_productive_hours.
Proof.
  destruct (find_optimal_start_time_free (datetime_of sample_day 8 0) (PInt 60)
              default_productive_hours (datetime_of sample_day 9 0) eq_refl)
    as (_ & H & _).
  exact H.
Defined.

(** The start time found on a free calendar is a fixed point: asking
    again from it, for any duration, answers the same time. *)
Theorem find_optimal_start_time_idempotent (current_time : datetime)
    (dur dur' : pyval) (hours : list Z) (r : datetime) :
  find_optimal_start_time current_time dur hours [] = Ok r ->
  find_optimal_start_time r dur' hours [] = Ok r.
Proof.
  intros H. apply find_optimal_start_time_base in H as (_ & Hin & _).
  unfold find_optimal_start_time.
  assert (E : existsb (Z.eqb (dt_hour r)) hours = true).
  { apply existsb_exists. exists (dt_hour r). split; [done|apply Z.eqb_refl]. }
  by rewrite E.
Qed.

Lemma find_optimal_start_time_idempotent_witness :
  find_optimal_start_time (datetime_of sample_day 9 0) (PInt 30)
    default_productive_hours [] = Ok (datetime_of sample_day 9 0).
Proof.
  apply (find_optimal_start_time_idempotent (datetime_of sample_day 8 0)
           (PInt 60) (PInt 30) default_productive_hours
           (datetime_of sample_day 9 0)).
  reflexivity.
Defined.

Lemma resolve_conflicts_cases existing :
  forall start r,
  resolve_conflicts existing start = Ok r ->
  (r = start /\
   forall x, x ∈ existing -> exists e, task_end x = Ok e /\ dt_us e <= dt_us start) \/
  (exists x e, x ∈ existing /\ task_end x = Ok e /\ dt_us start < dt_us e /\
               dt_us r = dt_us e + 15 * us_per_minute).
Proof.
  induction existing as [|task rest IH]; intros start r H.
  - injection H as <-. left. split; [done|]. intros x Hx. by apply elem_of_nil in Hx.
  - cbn [resolve_conflicts] in H.
    apply bind_inv in H as (e & He & H). apply bind_inv in H as (start' & Hs & H).
    unfold dt_ltb in Hs. destruct (dt_us start <? dt_us e) eqn:E.
    + apply Z.ltb_lt in E. apply dt_add_us in Hs.
      destruct (IH _ _ H) as [[-> Hall]|(x & ex & Hx & Hex & Hlt & Hr)].
      * right. exists task, e. split; [by left|]. done.
      * right. exists x, ex. split; [by right|]. repeat split; try done.
        unfold us_per_minute in *. lia.
    + apply Z.ltb_ge in E. injection Hs as <-.
      destruct (IH _ _ H) as [[-> Hall]|(x & ex & Hx & Hex & Hlt & Hr)].
      * left. split; [done|]. intros x Hx. apply elem_of_cons in Hx as [->|Hx].
        -- by exists e.
        -- by apply Hall.
      * right. exists x, ex. split; [by right|]. done.
Qed.

(** The conflict pass of [_find_optimal_start_time] either keeps the
    start found on a free calendar, and then every existing task ends by
    it, or answers the end of an existing task plus the 15-minute
    buffer, which is the one place the answer can leave the productive
    hours. *)
Theorem find_optimal_start_time_conflicts (current_time : datetime) (dur : pyval)
    (hours : list Z) (existing : list scheduled_task) (r : datetime) :
  find_optimal_start_time current_time dur hours existing = Ok r ->
  exists base,
    find_optimal_start_time current_time dur hours [] = Ok base /\
    ((r = base /\
      forall x, x ∈ existing ->
        exists e, task_end x = Ok e /\ dt_us e <= dt_us base) \/
     (exists x e, x ∈ existing /\ task_end x = Ok e /\ dt_us base < dt_us e /\
                  dt_us r = dt_us e + 15 * us_per_minute)).
Proof.
  unfold find_optimal_start_time. intros H.
  apply bind_inv in H as (base & Hbase & H). exists base.
  rewrite Hbase. split; [done|]. by apply resolve_conflicts_cases.
Qed.

Lemma find_optimal_start_time_conflicts_witness :
  exists base,
    find_optimal_start_time (datetime_of sample_day 9 10) (PInt 60)
      default_productive_hours [] = Ok base /\
    ((datetime_of sample_day 9 45 = base /\
      forall x, x ∈ [placement "short" (datetime_of sample_day 9 0) 30] ->
        exists e, task_end x = Ok e /\ dt_us e <= dt_us base) \/
     (exists x e, x ∈ [placement "short" (datetime_of sample_day 9 0) 30] /\
                  task_end x = Ok e /\ dt_us base < dt_us e /\
                  dt_us (datetime_of sample_day 9 45)
                    = dt_us e + 15 * us_per_minute)).
Proof.
  apply (find_optimal_start_time_conflicts (datetime_of sample_day 9 10)
           (PInt 60) default_productive_hours
           [placement "short" (datetime_of sample_day 9 0) 30]
           (datetime_of sample_day 9 45)).
  reflexivity.
Defined.

(** ** The schedule as a whole *)

Lemma place_task_for predict hours i task earlier cur s cur' :
  place_task predict hours i task earlier cur = Ok (s, cur') -> placed_for task s.
Proof.
  unfold place_task. intros H.
  apply bind_inv in H as (name & Hname & H).
  apply bind_inv in H as (prediction & _ & H).
  apply bind_inv in H as (dur & _ & H).
  apply bind_inv in H as (optimal & _ & H).
  apply bind_inv in H as (start & _ & H).
  apply bind_inv in H as (conf & _ & H).
  apply bind_inv in H as (d & _ & H).
  apply bind_inv in H as (cur0 & _ & H).
  injection H as <- <-. split; [|done]. cbn.
  unfold subscript in Hname. destruct (task !! "name"); [|done]. by injection Hname as ->.
Qed.

Lemma schedule_loop_for predict hours tasks :
  forall i earlier cur result,
  schedule_loop predict hours i tasks earlier cur = Ok result ->
  exists added, result = earlier ++ added /\ Forall2 placed_for tasks added.
Proof.
  induction tasks as [|task rest IH]; intros i earlier cur result H.
  - injection H as <-. exists []. rewrite app_nil_r. split; [done|constructor].
  - cbn [schedule_loop] in H. apply bind_inv in H as ([s cur'] & Hplace & H).
    cbn [fst snd] in H. apply IH in H as (added & -> & Hall).
    exists (s :: added). rewrite <- app_assoc. split; [done|].
    constructor; [|done]. by eapply place_task_for.
Qed.

(** A call of [create_smart_schedule] places every task or none: the
    list it returns is empty, or has one placement per task, in the order
    of the tasks, each with its task's name, category and project. *)
Theorem create_smart_schedule_all_or_nothing (now : datetime)
    (get_insights : outcome dict) (predict : predictor) (tasks : list dict) :
  let schedule := create_smart_schedule_with now get_insights predict tasks in
  schedule = [] \/ Forall2 placed_for tasks schedule.
Proof.
  unfold create_smart_schedule_with, catch_all.
  destruct get_insights as [insights|e]; [|by left]. rewrite bind_Ok.
  destruct (productive_hours_of insights) as [hours|e]; [|by left]. rewrite bind_Ok.
  destruct (schedule_loop predict hours 0 tasks [] now) as [r|e] eqn:E; [|by left].
  right. apply schedule_loop_for in E as (added & -> & Hall). done.
Qed.

Lemma timedelta_minutes_nonneg d q us :
  num_of d = Some q -> (0 <= q)%Q -> timedelta_minutes d = Ok us -> 0 <= us.
Proof.
  destruct d; simpl; intros Hq Hpos H; try discriminate;
    injection Hq as <-; injection H as <-.
  - assert (0 <= z) by (rewrite Zle_Qle; exact Hpos). unfold us_per_minute. lia.
  - apply round_half_even_ge. change (inject_Z 0) with 0%Q.
    apply Qmult_le_0_compat; [done|]. unfold us_per_minute. done.
Qed.

Lemma task_end_not_before s e :
  nonnegative_duration s -> task_end s = Ok e -> dt_us (start_time s) <= dt_us e.
Proof.
  intros (q & Hq & Hpos) H. unfold task_end in H.
  apply bind_inv in H as (us & Hus & H). apply dt_add_us in H.
  pose proof (timedelta_minutes_nonneg _ _ _ Hq Hpos Hus). lia.
Qed.

Lemma find_optimal_start_time_not_before cur dur hours existing r :
  find_optimal_start_time cur dur hours existing = Ok r -> dt_us cur <= dt_us r.
Proof.
  intros H.
  assert (exists base, find_optimal_start_time cur dur hours [] = Ok base /\
                       resolve_conflicts existing base = Ok r) as (base & Hbase & Hres).
  { unfold find_optimal_start_time in *. apply bind_inv in H as (base & Hb & H).
    exists base. by rewrite Hb. }
  apply find_optimal_start_time_base in Hbase as (Hle & _).
  apply resolve_conflicts_after in Hres as [Hle' _]. lia.
Qed.

Lemma placed_not_before hours i earlier cur added :
  placed hours i earlier cur added ->
  Forall nonnegative_duration added ->
  Forall (fun s => dt_us cur <= dt_us (start_time s)) added.
Proof.
  induction 1 as [i earlier cur
                 |earlier cur t0 rest cur' Hopt Hend Hrest IH
                 |i earlier cur t0 rest optimal b cur' Hopt Hb Hadd Hend Hrest IH];
    intros Hnn.
  - constructor.
  - apply Forall_cons in Hnn as [Hn0 Hnn].
    apply find_optimal_start_time_not_before in Hopt.
    pose proof (task_end_not_before _ _ Hn0 Hend).
    constructor; [done|]. eapply Forall_impl; [by apply IH|]. simpl. intros; lia.
  - apply Forall_cons in Hnn as [Hn0 Hnn].
    apply find_optimal_start_time_not_before in Hopt.
    apply dt_add_us in Hadd.
    apply calculate_break_duration_step in Hb as (m & _ & ->).
    pose proof (break_for_range m). unfold us_per_minute in Hadd.
    pose proof (task_end_not_before _ _ Hn0 Hend).
    constructor; [lia|]. eapply Forall_impl; [by apply IH|]. simpl. intros; lia.
Qed.

(** When the estimated durations are not negative, nothing is placed
    before the time of the call, and the placements start in the order of
    the list, each strictly later than the ones before it. *)
Theorem schedule_chronological (now : datetime) (get_insights : outcome dict)
    (predict : predictor) (tasks : list dict) :
  let schedule := create_smart_schedule_with now get_insights predict tasks in
  Forall nonnegative_duration schedule ->
  Forall (fun s => dt_us now <= dt_us (start_time s)) schedule /\
  forall pre p mid t post, schedule = pre ++ p :: mid ++ t :: post ->
    dt_us (start_time p) < dt_us (start_time t).
Proof.
  intros schedule Hnn.
  destruct (decide (schedule = [])) as [E|Hne].
  { rewrite E. split; [constructor|]. intros pre p mid t post H. by destruct pre. }
  destruct (create_smart_schedule_with_placed now get_insights predict tasks
              schedule eq_refl Hne)
    as (insights & hours & _ & _ & Hplaced & _).
  clearbody schedule.
  split; [by apply (placed_not_before _ _ _ _ _ Hplaced)|].
  intros pre p mid t post Heq.
  destruct (placed_gap _ _ _ _ _ Hplaced (pre ++ p :: mid) t post) with (x := p)
    as (e & b & He & Hb & Hgap).
  { rewrite Heq. by rewrite <- app_assoc. }
  { rewrite length_app. simpl. lia. }
  { rewrite app_nil_l. apply elem_of_app. right. apply elem_of_cons. by left. }
  apply calculate_break_duration_step in Hb as (m & _ & ->).
  pose proof (break_for_range m).
  assert (Hp : nonnegative_duration p).
  { rewrite Forall_forall in Hnn. apply Hnn. rewrite Heq.
    apply elem_of_app. right. apply elem_of_cons. by left. }
  pose proof (task_end_not_before _ _ Hp He). unfold us_per_minute in *. lia.
Qed.

Lemma schedule_chronological_witness :
  dt_us (datetime_of sample_day 9 0) < dt_us (datetime_of sample_day 11 15).
Proof.
  pose proof (schedule_chronological (datetime_of sample_day 9 0)
                (Ok initial_insights) (estimate_by_name minutes_by_name)
                [named_task "review"; named_task "note"]) as H.
  cbv zeta in H. destruct H as [_ H].
  - change (Forall nonnegative_duration
              [placement "review" (datetime_of sample_day 9 0) 130;
               placement "note" (datetime_of sample_day 11 15) 10]).
    constructor; [|constructor; [|constructor]];
      eexists; (split; [reflexivity|]); unfold Qle; simpl; lia.
  - apply (H [] (placement "review" (datetime_of sample_day 9 0) 130) []
             (placement "note" (datetime_of sample_day 11 15) 10) []).
    reflexivity.
Defined.

(** With an empty list of productive hours [_find_optimal_start_time]
    never answers (the hour of the next day is read from an empty list),
    and [create_smart_schedule] returns the empty schedule whatever the
    tasks are. *)
Theorem no_productive_hours_no_schedule (now : datetime) (insights : dict)
    (predict : predictor) (tasks : list dict) :
  productive_hours_of insights = Ok [] ->
  (forall current_time dur existing r,
     find_optimal_start_time current_time dur [] existing <> Ok r) /\
  create_smart_schedule_with now (Ok insights) predict tasks = [].
Proof.
  intros Hhours.
  assert (Hfind : forall current_time dur existing r,
     find_optimal_start_time current_time dur [] existing <> Ok r).
  { intros current_time dur existing r H. unfold find_optimal_start_time in H.
    apply bind_inv in H as (start & Hstart & _). cbn in Hstart.
    apply bind_inv in Hstart as (tomorrow & _ & Hstart). done. }
  split; [done|].
  unfold create_smart_schedule_with, catch_all. rewrite bind_Ok, Hhours, bind_Ok.
  destruct tasks as [|task rest]; [done|]. cbn [schedule_loop].
  destruct (place_task predict [] 0 task [] now) as [[s cur]|e] eqn:E; [|done].
  exfalso. unfold place_task in E.
  apply bind_inv in E as (name & _ & E).
  apply bind_inv in E as (prediction & _ & E).
  apply bind_inv in E as (dur & _ & E).
  apply bind_inv in E as (optimal & Hopt & _). by apply Hfind in Hopt.
Qed.

Lemma no_productive_hours_no_schedule_witness :
  create_smart_schedule_with (datetime_of sample_day 9 0) (Ok insights_no_hours)
    (estimate_by_name minutes_by_name) [named_task "review"] = [].
Proof.
  exact (proj2 (no_productive_hours_no_schedule (datetime_of sample_day 9 0)
                  insights_no_hours (estimate_by_name minutes_by_name)
                  [named_task "review"] eq_refl)).
Defined.

(** ** The estimator *)

(** When the database cannot be reached, or MySQL refuses both queries,
    [predict_task_duration] does not fall back on its default estimate:
    [execute_query] swallows the error, so the answer is the one-hour
    default of the category "other" with confidence 70. *)
Theorem predict_task_duration_database_down (self : scheduler)
    (task_name description category_id : pyval) :
  connected self = false \/
  (category_name_rows (db self) category_id = Raise DbError /\
   category_average_rows (db self) category_id (user_id self) = Raise DbError) ->
  predict_task_duration self task_name description category_id = estimate_dict 1 /\
  predict_task_duration self task_name description category_id <> fallback_estimate.
Proof.
  intros H.
  assert (Hcat : lookup_category_name self category_id = Ok (PStr "other")).
  { apply lookup_category_name_unknown. destruct (truthy category_id); [|by left].
    right; left. unfold execute_query.
    destruct H as [->|[-> _]]; [done|]. by destruct (connected self). }
  assert (Havg : execute_query (connected self)
            (category_average_rows (db self) category_id (user_id self)) = Ok None).
  { unfold execute_query. destruct H as [->|[_ ->]]; [done|].
    by destruct (connected self). }
  assert (Heq : predict_task_duration self task_name description category_id
                = estimate_dict 1).
  { unfold predict_task_duration, predict_task_duration_body.
    rewrite Hcat, bind_Ok, Havg, bind_Ok. reflexivity. }
  split; [done|]. rewrite Heq. intros Hbad.
  assert (Hc : estimate_dict 1 !! "confidence" = fallback_estimate !! "confidence")
    by (by rewrite Hbad).
  vm_compute in Hc. discriminate Hc.
Qed.

Lemma predict_task_duration_database_down_witness :
  predict_task_duration unreachable_scheduler (PStr "Write tests") (PStr "")
    (PInt 3) = estimate_dict 1.
Proof.
  exact (proj1 (predict_task_duration_database_down unreachable_scheduler
                  (PStr "Write tests") (PStr "") (PInt 3)
                  (or_introl eq_refl))).
Defined.

(** An exception of the average query that is not MySQL's passes through
    [execute_query] and ends in the handler of [predict_task_duration]:
    the answer is the default estimate (one hour, confidence 50). *)
Theorem predict_task_duration_fallback (self : scheduler)
    (task_name description category_id : pyval) (e : exn) :
  connected self = true ->
  category_average_rows (db self) category_id (user_id self) = Raise e ->
  e <> DbError ->
  predict_task_duration self task_name description category_id = fallback_estimate.
Proof.
  intros Hconn Hraise Hne.
  unfold predict_task_duration, predict_task_duration_body.
  destruct (lookup_category_name self category_id) as [name|e']; [|done].
  rewrite bind_Ok. unfold execute_query. rewrite Hconn, Hraise.
  cbn [mbind outcome_bind catch_db].
  assert (is_db_error e = false) as -> by (by destruct e). done.
Qed.

Lemma predict_task_duration_fallback_witness :
  predict_task_duration failing_estimator_scheduler (PStr "Write tests")
    (PStr "") (PInt 3) = fallback_estimate.
Proof.
  apply (predict_task_duration_fallback failing_estimator_scheduler
           (PStr "Write tests") (PStr "") (PInt 3) OtherError);
    [reflexivity|reflexivity|discriminate].
Defined.

(** When the category has a historical average that is not zero, the
    estimate is that average converted to hours and rounded to one
    decimal, whatever the category's name is; it is within 0.05 hours of
    the average. *)
Theorem predict_task_duration_from_average (self : scheduler)
    (task_name description category_id name avg : pyval) (rest : list pyval)
    (minutes : Q) :
  lookup_category_name self category_id = Ok name ->
  execute_query (connected self)
    (category_average_rows (db self) category_id (user_id self))
    = Ok (Some (avg :: rest)) ->
  truthy avg = true ->
  num_of avg = Some minutes ->
  predict_task_duration self task_name description category_id
    = estimate_dict (round1 (minutes / 60)) /\
  (round1 (minutes / 60) - (1 # 20) <= minutes / 60
   <= round1 (minutes / 60) + (1 # 20))%Q.
Proof.
  intros Hname Havg Htruthy Hnum. split; [|apply round1_close].
  unfold predict_task_duration, predict_task_duration_body.
  rewrite Hname, bind_Ok, Havg, bind_Ok, Htruthy, bind_Ok.
  assert (py_div60 avg = Ok (minutes / 60)%Q) as ->
    by (destruct avg; simpl in *; try discriminate; by injection Hnum as <-).
  by rewrite bind_Ok.
Qed.

Lemma predict_task_duration_from_average_witness :
  predict_task_duration averaging_scheduler (PStr "Refactor") (PStr "")
    (PInt 1) = estimate_dict (round1 (90 / 60)).
Proof.
  exact (proj1 (predict_task_duration_from_average averaging_scheduler
                  (PStr "Refactor") (PStr "") (PInt 1) (PStr "coding")
                  (PNum 90) [] 90 eq_refl eq_refl eq_refl eq_refl)).
Defined.

(** ** The breaks of a scheduling suggestion *)

Lemma suggest_breaks_for_ladder (estimated : pyval) (q : Q) :
  num_of estimated = Some q ->
  exists breaks, suggest_breaks_for estimated = Ok breaks /\
    ((q <= 60)%Q -> breaks = []) /\
    ((60 < q <= 120)%Q ->
       breaks = [mk_recommended_break estimated 15 "completion break"]) /\
    ((120 < q)%Q -> exists half,
       breaks = [mk_recommended_break half 15 "mid-session break";
                 mk_recommended_break estimated 30 "completion break"] /\
       num_of half = Some (inject_Z (Qfloor (q / 2)))).
Proof.
  intros Hnum. unfold suggest_breaks_for.
  rewrite !(py_gt_num _ _ _ Hnum), !bind_Ok.
  change (inject_Z 120) with 120%Q. change (inject_Z 60) with 60%Q.
  destruct (Qle_bool q 120) eqn:E120; cbn [negb].
  - apply Qle_bool_iff in E120.
    destruct (Qle_bool q 60) eqn:E60; cbn [negb].
    + apply Qle_bool_iff in E60. eexists. split; [done|].
      repeat split; intros; try done; lra.
    + apply Qle_bool_false in E60. eexists. split; [done|].
      repeat split; intros; try done; lra.
  - apply Qle_bool_false in E120.
    assert (Hh : exists half, py_floordiv2 estimated = Ok half /\
               num_of half = Some (inject_Z (Qfloor (q / 2)))).
    { destruct estimated; simpl in *; try discriminate; injection Hnum as <-.
      - eexists. split; [reflexivity|]. simpl. do 2 f_equal.
        unfold Qfloor, Qdiv, Qmult, Qinv, inject_Z. simpl.
        by rewrite Z.mul_1_r.
      - eexists. split; reflexivity. }
    destruct Hh as (half & -> & Hhalf). rewrite bind_Ok.
    eexists. split; [done|]. repeat split; intros; try lra. eauto.
Qed.

(** The breaks [get_smart_scheduling_suggestion] recommends follow from
    its estimated duration alone: none up to 60 minutes, one 15-minute
    break at the end up to 120 minutes, and beyond that a 15-minute break
    at half the duration (rounded down) and a 30-minute one at the end. *)
Theorem recommended_breaks_ladder (d : database) (user : Z)
    (task_name category_id : pyval) (s : suggestion) :
  get_smart_scheduling_suggestion d user task_name category_id = Ok s ->
  exists q, num_of (estimated_duration s) = Some q /\
    ((q <= 60)%Q -> recommended_breaks s = []) /\
    ((60 < q <= 120)%Q ->
       recommended_breaks s
         = [mk_recommended_break (estimated_duration s) 15 "completion break"]) /\
    ((120 < q)%Q -> exists half,
       recommended_breaks s
         = [mk_recommended_break half 15 "mid-session break";
            mk_recommended_break (estimated_duration s) 30 "completion break"] /\
       num_of half = Some (inject_Z (Qfloor (q / 2)))).
Proof.
  unfold get_smart_scheduling_suggestion.
  set (body := _ ≫= _). intros H.
  assert (Hcases : s = empty_suggestion \/
     exists breaks, suggest_breaks_for (estimated_duration s) = Ok breaks /\
                    recommended_breaks s = breaks).
  { destruct body as [s'|e] eqn:E; cbn [catch_db] in H.
    - injection H as ->. right. unfold body in E.
      apply bind_inv in E as (found & _ & E).
      apply bind_inv in E as (partial & _ & E).
      apply bind_inv in E as (breaks & Hb & E). injection E as <-.
      exists breaks. done.
    - destruct (is_db_error e); [|done]. injection H as <-. by left. }
  destruct Hcases as [->|(breaks & Hb & Hr)].
  - exists 0%Q. split; [done|]. repeat split; intros; try done; lra.
  - assert (Hnum : exists q, num_of (estimated_duration s) = Some q).
    { destruct (estimated_duration s) as [|z|q'|str|l];
        [exfalso|by exists (inject_Z z)|by exists q'|exfalso|exfalso];
        unfold suggest_breaks_for in Hb; discriminate Hb. }
    destruct Hnum as [q Hq]. exists q. split; [done|].
    destruct (suggest_breaks_for_ladder _ _ Hq) as (breaks' & Hb' & Hl).
    rewrite Hb in Hb'. injection Hb' as <-. rewrite Hr. exact Hl.
Qed.

Lemma recommended_breaks_ladder_witness :
  exists s q,
    get_smart_scheduling_suggestion
      (sample_database three_similar_tasks PNone (1, 3)) 1
      (PStr "Write tests") (PInt 3) = Ok s /\
    num_of (estimated_duration s) = Some q /\
    ((q <= 60)%Q -> recommended_breaks s = []).
Proof.
  eexists.
  destruct (recommended_breaks_ladder
              (sample_database three_similar_tasks PNone (1, 3)) 1
              (PStr "Write tests") (PInt 3) _ eq_refl)
    as (q & Hq & H & _).
  exists q. split; [reflexivity|]. split; [exact Hq|exact H].
Defined.

(** ** The insights *)

Section InsightsSteps.

Variables (d : database) (user : Z).

Lemma set_most_productive_time_entries i i' :
  set_most_productive_time d user i = Ok i' ->
  (forall key, key <> "most_productive_time"%string -> i' !! key = i !! key) /\
  exists r, time_analysis_row d user = Ok r /\
    i' !! "most_productive_time" =
      match r with
      | Some hour => Some (PStr (format_02d hour +:+ ":00"))
      | None => i !! "most_productive_time"
      end.
Proof.
  unfold set_most_productive_time.
  destruct (time_analysis_row d user) as [[h|]|e]; simpl; intros [= <-].
  - split; [intros key Hk; by rewrite lookup_insert_ne|].
    eexists. split; [done|]. by rewrite lookup_insert_eq.
  - split; [done|]. eexists. split; done.
Qed.

Lemma set_average_session_length_entries i i' :
  set_average_session_length d user i = Ok i' ->
  (forall key, key <> "average_session_length"%string -> i' !! key = i !! key) /\
  (i' !! "average_session_length" = i !! "average_session_length" \/
   exists v, i' !! "average_session_length" = Some v /\ is_Some (num_of v)).
Proof.
  unfold set_average_session_length.
  destruct (avg_session_row d user) as [[v|]|e]; simpl; [| |done].
  - destruct (truthy v); [|intros [= <-]; split; [done|by left]].
    destruct (py_round1 v) as [w|] eqn:E; simpl; [|done]. intros [= <-].
    split; [intros key Hk; by rewrite lookup_insert_ne|].
    right. exists w. rewrite lookup_insert_eq. split; [done|].
    destruct v; simpl in E; try discriminate; injection E as <-; by eexists.
  - intros [= <-]. split; [done|by left].
Qed.

Lemma set_completion_rate_entries i i' :
  set_completion_rate d user i = Ok i' ->
  (forall key, key <> "completion_rate"%string -> i' !! key = i !! key) /\
  exists r, completion_row d user = Ok r /\
    i' !! "completion_rate" =
      match r with
      | Some (completed, total) =>
          if 0 <? total then Some (PNum (completion_percentage completed total))
          else i !! "completion_rate"
      | None => i !! "completion_rate"
      end.
Proof.
  unfold set_completion_rate.
  destruct (completion_row d user) as [[[c t]|]|e]; simpl; [| |done].
  - destruct (0 <? t) eqn:Et; intros [= <-].
    + split; [intros key Hk; by rewrite lookup_insert_ne|].
      eexists. split; [done|]. cbn beta iota. by rewrite Et, lookup_insert_eq.
    + split; [done|]. eexists. split; [done|]. cbn beta iota. by rewrite Et.
  - intros [= <-]. split; [done|]. eexists. split; done.
Qed.

Lemma set_top_categories_entries i i' :
  set_top_categories d user i = Ok i' ->
  (forall key, key <> "top_categories"%string -> i' !! key = i !! key) /\
  is_Some (i' !! "top_categories").
Proof.
  unfold set_top_categories. destruct (top_categories_rows d user); simpl;
    intros [= <-].
  split; [intros key Hk; by rewrite lookup_insert_ne|].
  rewrite lookup_insert_eq. by eexists.
Qed.

Lemma set_project_breakdown_entries i i' :
  set_project_breakdown d user i = Ok i' ->
  (forall key, key <> "project_breakdown"%string -> i' !! key = i !! key) /\
  is_Some (i' !! "project_breakdown").
Proof.
  unfold set_project_breakdown. destruct (project_breakdown_rows d user); simpl;
    intros [= <-].
  split; [intros key Hk; by rewrite lookup_insert_ne|].
  rewrite lookup_insert_eq. by eexists.
Qed.

Lemma set_improvement_suggestions_entries i i' :
  set_improvement_suggestions i = Ok i' ->
  (forall key, key <> "improvement_suggestions"%string -> i' !! key = i !! key) /\
  exists session rate best long low,
    i !! "average_session_length" = Some session /\
    i !! "completion_rate" = Some rate /\
    i !! "most_productive_time" = Some best /\
    py_gt session 120 = Ok long /\ py_lt rate 70 = Ok low /\
    i' !! "improvement_suggestions" = Some (PList (
      (if long : bool
       then [PStr "Consider breaking longer sessions into smaller chunks for better focus."]
       else []) ++
      (if low : bool then [realistic_deadlines_suggestion] else []) ++
      (if truthy best then [] else [track_patterns_suggestion]))).
Proof.
  unfold set_improvement_suggestions. intros H.
  apply bind_inv in H as (session & Hs & H).
  apply bind_inv in H as (long & Hlong & H).
  apply bind_inv in H as (rate & Hr & H).
  apply bind_inv in H as (low & Hlow & H).
  apply bind_inv in H as (best & Hb & H).
  injection H as <-.
  split; [intros key Hk; by rewrite lookup_insert_ne|].
  exists session, rate, best, long, low.
  unfold subscript in *.
  destruct (i !! "average_session_length"); [injection Hs as ->|done].
  destruct (i !! "completion_rate"); [injection Hr as ->|done].
  destruct (i !! "most_productive_time"); [injection Hb as ->|done].
  repeat split; try done. by rewrite lookup_insert_eq.
Qed.

(** A property of the insights that every step keeps is a property of
    whatever [get_productivity_insights] returns. *)
Lemma insights_invariant (P : dict -> Prop) (insights : dict) :
  P initial_insights ->
  (forall i i', P i -> set_most_productive_time d user i = Ok i' -> P i') ->
  (forall i i', P i -> set_average_session_length d user i = Ok i' -> P i') ->
  (forall i i', P i -> set_completion_rate d user i = Ok i' -> P i') ->
  (forall i i', P i -> set_top_categories d user i = Ok i' -> P i') ->
  (forall i i', P i -> set_project_breakdown d user i = Ok i' -> P i') ->
  (forall i i', P i -> set_improvement_suggestions i = Ok i' -> P i') ->
  get_productivity_insights d user = Ok insights -> P insights.
Proof.
  intros H0 H1 H2 H3 H4 H5 H6 H. unfold get_productivity_insights in H.
  apply guarded_cases in H as [[-> _]|(i1 & E1 & H)]; [done|].
  apply H1 in E1; [|done].
  apply guarded_cases in H as [[-> _]|(i2 & E2 & H)]; [done|].
  apply H2 in E2; [|done].
  apply guarded_cases in H as [[-> _]|(i3 & E3 & H)]; [done|].
  apply H3 in E3; [|done].
  apply guarded_cases in H as [[-> _]|(i4 & E4 & H)]; [done|].
  apply H4 in E4; [|done].
  apply guarded_cases in H as [[-> _]|(i5 & E5 & H)]; [done|].
  apply H5 in E5; [|done].
  apply guarded_cases in H as [[-> _]|(i6 & E6 & H)]; [done|].
  apply H6 in E6; [|done]. by injection H as <-.
Qed.

End InsightsSteps.

Lemma initial_insights_keys (key : string) :
  is_Some (initial_insights !! key) <-> In key insights_keys.
Proof.
  unfold initial_insights, insights_keys. split.
  - intros [v Hv]. revert Hv.
    repeat (rewrite lookup_insert; case_decide;
            [intros _; subst key; simpl; tauto|]).
    by rewrite lookup_empty.
  - simpl. intros [<-|[<-|[<-|[<-|[<-|[<-|[]]]]]]]; by eexists.
Qed.

Lemma insights_lookup_keys (d : database) (user : Z) (insights : dict)
    (key : string) :
  get_productivity_insights d user = Ok insights ->
  is_Some (insights !! key) <-> In key insights_keys.
Proof.
  intros H. rewrite <- initial_insights_keys.
  revert key. pattern insights.
  apply (insights_invariant d user); [done|..|exact H]; clear H insights.
  - intros i i' Hi Hstep key. rewrite <- Hi.
    apply set_most_productive_time_entries in Hstep as (Hother & r & _ & Hown).
    destruct (decide (key = "most_productive_time"%string)) as [->|Hk];
      [|by rewrite Hother].
    rewrite Hown. destruct r; [|done]. rewrite Hi. split; [|by eexists].
    intros _. by eexists.
  - intros i i' Hi Hstep key. rewrite <- Hi.
    apply set_average_session_length_entries in Hstep as (Hother & Hown).
    destruct (decide (key = "average_session_length"%string)) as [->|Hk];
      [|by rewrite Hother].
    destruct Hown as [->|(v & -> & _)]; [done|]. rewrite Hi.
    split; [|by eexists]. intros _. by eexists.
  - intros i i' Hi Hstep key. rewrite <- Hi.
    apply set_completion_rate_entries in Hstep as (Hother & r & _ & Hown).
    destruct (decide (key = "completion_rate"%string)) as [->|Hk];
      [|by rewrite Hother].
    rewrite Hown. destruct r as [[c t]|]; [|done].
    destruct (0 <? t); [|done]. rewrite Hi. split; [|by eexists].
    intros _. by eexists.
  - intros i i' Hi Hstep key. rewrite <- Hi.
    apply set_top_categories_entries in Hstep as (Hother & Hown).
    destruct (decide (key = "top_categories"%string)) as [->|Hk];
      [|by rewrite Hother].
    rewrite Hi. split; [|done]. intros _. by eexists.
  - intros i i' Hi Hstep key. rewrite <- Hi.
    apply set_project_breakdown_entries in Hstep as (Hother & Hown).
    destruct (decide (key = "project_breakdown"%string)) as [->|Hk];
      [|by rewrite Hother].
    rewrite Hi. split; [|done]. intros _. by eexists.
  - intros i i' Hi Hstep key. rewrite <- Hi.
    apply set_improvement_suggestions_entries in Hstep
      as (Hother & s & r & b & lg & lw & _ & _ & _ & _ & _ & Hown).
    destruct (decide (key = "improvement_suggestions"%string)) as [->|Hk];
      [|by rewrite Hother].
    rewrite Hown, Hi. split; [|by eexists]. intros _. by eexists.
Qed.

(** Whatever the database answers, the dict returned by
    [get_productivity_insights] has exactly its six keys: a failed query
    leaves the initial value of its entry, and no other key is ever
    written. *)
Theorem insights_have_six_keys (d : database) (user : Z) (insights : dict)
    (key : string) :
  get_productivity_insights d user = Ok insights ->
  is_Some (insights !! key) <-> In key insights_keys.
Proof. apply insights_lookup_keys. Qed.

Lemma insights_have_six_keys_witness :
  exists insights,
    get_productivity_insights (sample_database [] PNone (1, 3)) 1 = Ok insights /\
    (is_Some (insights !! "top_categories")
     <-> In "top_categories"%string insights_keys).
Proof.
  eexists. split; [reflexivity|].
  apply (insights_have_six_keys (sample_database [] PNone (1, 3)) 1).
  reflexivity.
Defined.

Lemma insights_are_well_formed (d : database) (user : Z) (insights : dict) :
  get_productivity_insights d user = Ok insights -> insights_well_formed insights.
Proof.
  apply (insights_invariant d user).
  - split; [|split]; [exists (PInt 0)|exists (PInt 0)|];
      try (split; [reflexivity|by eexists]). by eexists.
  - intros i i' (Ha & Hb & Hc) Hstep.
    apply set_most_productive_time_entries in Hstep as (Hother & r & _ & Hown).
    split; [|split]; [by rewrite Hother|by rewrite Hother|].
    rewrite Hown. destruct r; [by eexists|done].
  - intros i i' (Ha & Hb & Hc) Hstep.
    apply set_average_session_length_entries in Hstep as (Hother & Hown).
    split; [|split]; [|by rewrite Hother|by rewrite Hother].
    destruct Hown as [->|(v & Hv & Hnum)]; [done|by exists v].
  - intros i i' (Ha & Hb & Hc) Hstep.
    apply set_completion_rate_entries in Hstep as (Hother & r & _ & Hown).
    split; [|split]; [by rewrite Hother| |by rewrite Hother].
    rewrite Hown. destruct r as [[c t]|]; [|done]. destruct (0 <? t); [|done].
    eexists. split; [done|by eexists].
  - intros i i' (Ha & Hb & Hc) Hstep.
    apply set_top_categories_entries in Hstep as (Hother & _).
    split; [|split]; by rewrite Hother.
  - intros i i' (Ha & Hb & Hc) Hstep.
    apply set_project_breakdown_entries in Hstep as (Hother & _).
    split; [|split]; by rewrite Hother.
  - intros i i' (Ha & Hb & Hc) Hstep.
    apply set_improvement_suggestions_entries in Hstep as (Hother & _).
    split; [|split]; by rewrite Hother.
Qed.

Lemma truthy_time_label (s : string) : truthy (PStr (s +:+ ":00")) = true.
Proof. by destruct s. Qed.

Lemma set_improvement_suggestions_no_db_error i :
  set_improvement_suggestions i <> Raise DbError.
Proof.
  unfold set_improvement_suggestions, subscript.
  destruct (i !! "average_session_length") as [s|]; [|done]. rewrite bind_Ok.
  destruct (py_gt s 120) as [lg|e] eqn:E1;
    [|destruct s; simpl in E1; try discriminate; by injection E1 as <-].
  rewrite bind_Ok.
  destruct (i !! "completion_rate") as [r|]; [|done]. rewrite bind_Ok.
  destruct (py_lt r 70) as [lw|e] eqn:E2;
    [|destruct r; simpl in E2; try discriminate; by injection E2 as <-].
  rewrite bind_Ok.
  by destruct (i !! "most_productive_time").
Qed.

(** When every query succeeds, the improvement suggestions contain the
    advice to track productivity patterns exactly when no hour stands
    out, and the advice to set realistic deadlines exactly when the user
    has no tasks or a completion percentage below 70. *)
Theorem improvement_suggestions_rule (d : database) (user : Z) (insights : dict)
    (hour : option Z) (completed total : Z) (avg : option pyval)
    (top projects : pyval) :
  time_analysis_row d user = Ok hour ->
  avg_session_row d user = Ok avg ->
  completion_row d user = Ok (Some (completed, total)) ->
  top_categories_rows d user = Ok top ->
  project_breakdown_rows d user = Ok projects ->
  get_productivity_insights d user = Ok insights ->
  exists suggestions,
    insights !! "improvement_suggestions" = Some (PList suggestions) /\
    (track_patterns_suggestion ∈ suggestions <-> hour = None) /\
    (realistic_deadlines_suggestion ∈ suggestions <->
       total <= 0 \/ (completion_percentage completed total < 70)%Q).
Proof.
  intros Hhour Havg Hcount Htop Hproj H. unfold get_productivity_insights in H.
  apply guarded_cases in H as [[_ E]|(i1 & E1 & H)].
  { exfalso. revert E. unfold set_most_productive_time. rewrite Hhour, bind_Ok. by destruct hour. }
  apply guarded_cases in H as [[_ E]|(i2 & E2 & H)].
  { exfalso. revert E. unfold set_average_session_length. rewrite Havg, bind_Ok.
    destruct avg as [v|]; [|done]. destruct (truthy v); [|done]. by destruct v. }
  apply guarded_cases in H as [[_ E]|(i3 & E3 & H)].
  { exfalso. revert E. unfold set_completion_rate. rewrite Hcount, bind_Ok.
    by destruct (0 <? total). }
  apply guarded_cases in H as [[_ E]|(i4 & E4 & H)].
  { exfalso. revert E. unfold set_top_categories. by rewrite Htop, bind_Ok. }
  apply guarded_cases in H as [[_ E]|(i5 & E5 & H)].
  { exfalso. revert E. unfold set_project_breakdown. by rewrite Hproj, bind_Ok. }
  apply guarded_cases in H as [[_ E]|(i6 & E6 & H)].
  { by apply set_improvement_suggestions_no_db_error in E. }
  injection H as <-.
  apply set_most_productive_time_entries in E1 as (O1 & r1 & Hr1 & Own1).
  rewrite Hhour in Hr1. injection Hr1 as <-.
  apply set_average_session_length_entries in E2 as (O2 & _).
  apply set_completion_rate_entries in E3 as (O3 & r3 & Hr3 & Own3).
  rewrite Hcount in Hr3. injection Hr3 as <-.
  apply set_top_categories_entries in E4 as (O4 & _).
  apply set_project_breakdown_entries in E5 as (O5 & _).
  apply set_improvement_suggestions_entries in E6
    as (_ & session & rate & best & long & low & Hs & Hr & Hb & Hlong & Hlow & Hown).
  assert (Hbest : best = match hour with
                         | Some h => PStr (format_02d h +:+ ":00")
                         | None => PNone
                         end).
  { rewrite O5, O4, O3, O2, Own1 in Hb by done. destruct hour.
    - by injection Hb as <-.
    - cbn in Hb. by injection Hb as <-. }
  assert (Hrate : rate = if 0 <? total
                         then PNum (completion_percentage completed total)
                         else PInt 0).
  { rewrite O5, O4, Own3 in Hr by done. destruct (0 <? total).
    - by injection Hr as <-.
    - rewrite O2, O1 in Hr by done. cbn in Hr. by injection Hr as <-. }
  eexists. split; [exact Hown|]. split.
  - rewrite !elem_of_app. split.
    + intros [Hin|[Hin|Hin]].
      * destruct long; [|by apply elem_of_nil in Hin].
        apply list_elem_of_singleton in Hin. discriminate Hin.
      * destruct low; [|by apply elem_of_nil in Hin].
        apply list_elem_of_singleton in Hin. discriminate Hin.
      * subst best. destruct hour as [h|]; [|done].
        rewrite truthy_time_label in Hin. by apply elem_of_nil in Hin.
    + intros ->. subst best. right; right. cbn. by left.
  - subst rate. rewrite !elem_of_app. 
    destruct (Z.ltb_spec 0 total) as [Hpos|Hnp].
    + cbn in Hlow. injection Hlow as <-.
      change (inject_Z 70) with 70%Q.
      destruct (Qle_bool 70 (completion_percentage completed total)) eqn:E;
        [apply Qle_bool_iff in E|apply Qle_bool_false in E]; cbn [negb]; split.
      * intros [Hin|[Hin|Hin]]; exfalso.
        -- destruct long; [|by apply elem_of_nil in Hin].
           apply list_elem_of_singleton in Hin. discriminate Hin.
        -- by apply elem_of_nil in Hin.
        -- destruct (truthy best); [by apply elem_of_nil in Hin|].
           apply list_elem_of_singleton in Hin. discriminate Hin.
      * intros [?|?]; [lia|lra].
      * intros _. by right.
      * intros _. right; left. by left.
    + cbn in Hlow. injection Hlow as <-. split; [intros _; by left|].
      intros _. right; left. by left.
Qed.

Lemma improvement_suggestions_rule_witness :
  exists insights suggestions,
    get_productivity_insights (sample_database [] PNone (1, 3)) 1 = Ok insights /\
    insights !! "improvement_suggestions" = Some (PList suggestions) /\
    (realistic_deadlines_suggestion ∈ suggestions <->
       3 <= 0 \/ (completion_percentage 1 3 < 70)%Q).
Proof.
  eexists.
  destruct (improvement_suggestions_rule (sample_database [] PNone (1, 3)) 1 _
              (Some 10) 1 3 (Some (PNum 42.5)) (PList []) (PList [])
              eq_refl eq_refl eq_refl eq_refl eq_refl eq_refl)
    as (suggestions & Hs & _ & H).
  exists suggestions. split; [reflexivity|]. split; [exact Hs|exact H].
Defined.

(** A MySQL error in any of the five queries ends
    [get_productivity_insights] before the suggestions are computed: the
    insights it returns then carry an empty list of improvement
    suggestions, and nothing but the initial values when the first query
    is the one that fails. *)
Theorem insights_after_database_error (d : database) (user : Z)
    (insights : dict) :
  time_analysis_row d user = Raise DbError \/
  avg_session_row d user = Raise DbError \/
  completion_row d user = Raise DbError \/
  top_categories_rows d user = Raise DbError \/
  project_breakdown_rows d user = Raise DbError ->
  get_productivity_insights d user = Ok insights ->
  insights !! "improvement_suggestions" = Some (PList []) /\
  (time_analysis_row d user = Raise DbError -> insights = initial_insights).
Proof.
  intros Hfail H. unfold get_productivity_insights in H.
  assert (H0 : initial_insights !! "improvement_suggestions" = Some (PList []))
    by reflexivity.
  apply guarded_cases in H as [[-> _]|(i1 & E1 & H)]; [done|].
  assert (Hq1 : time_analysis_row d user <> Raise DbError).
  { intros Hq. unfold set_most_productive_time in E1. by rewrite Hq in E1. }
  apply set_most_productive_time_entries in E1 as (O1 & _).
  assert (H1 : i1 !! "improvement_suggestions" = Some (PList []))
    by (by rewrite O1).
  split; [|done].
  apply guarded_cases in H as [[-> _]|(i2 & E2 & H)]; [done|].
  assert (Hq2 : avg_session_row d user <> Raise DbError).
  { intros Hq. unfold set_average_session_length in E2. by rewrite Hq in E2. }
  apply set_average_session_length_entries in E2 as (O2 & _).
  assert (H2 : i2 !! "improvement_suggestions" = Some (PList []))
    by (by rewrite O2).
  apply guarded_cases in H as [[-> _]|(i3 & E3 & H)]; [done|].
  assert (Hq3 : completion_row d user <> Raise DbError).
  { intros Hq. unfold set_completion_rate in E3. by rewrite Hq in E3. }
  apply set_completion_rate_entries in E3 as (O3 & _).
  assert (H3 : i3 !! "improvement_suggestions" = Some (PList []))
    by (by rewrite O3).
  apply guarded_cases in H as [[-> _]|(i4 & E4 & H)]; [done|].
  assert (Hq4 : top_categories_rows d user <> Raise DbError).
  { intros Hq. unfold set_top_categories in E4. by rewrite Hq in E4. }
  apply set_top_categories_entries in E4 as (O4 & _).
  assert (H4 : i4 !! "improvement_suggestions" = Some (PList []))
    by (by rewrite O4).
  apply guarded_cases in H as [[-> _]|(i5 & E5 & H)]; [done|].
  assert (Hq5 : project_breakdown_rows d user <> Raise DbError).
  { intros Hq. unfold set_project_breakdown in E5. by rewrite Hq in E5. }
  exfalso. destruct Hfail as [?|[?|[?|[?|?]]]]; done.
Qed.

Lemma insights_after_database_error_witness :
  exists insights,
    get_productivity_insights sessions_query_fails 1 = Ok insights /\
    insights !! "improvement_suggestions" = Some (PList []).
Proof.
  eexists. split; [reflexivity|].
  exact (proj1 (insights_after_database_error sessions_query_fails 1 _
                  (or_intror (or_introl eq_refl)) eq_refl)).
Defined.

(** ** Schedule recommendations *)

Lemma get_or_absent (m : dict) key dflt : m !! key = None -> get_or m key dflt = dflt.
Proof. unfold get_or. by intros ->. Qed.

Lemma get_or_present (m : dict) key dflt v : m !! key = Some v -> get_or m key dflt = v.
Proof. unfold get_or. by intros ->. Qed.

Lemma insights_key_absent (d : database) (user : Z) (insights : dict) (key : string) :
  get_productivity_insights d user = Ok insights ->
  ~ In key insights_keys -> insights !! key = None.
Proof.
  intros H Hnot. destruct (insights !! key) as [v|] eqn:E; [|done].
  exfalso. apply Hnot. apply (insights_lookup_keys _ _ _ key H). by eexists.
Qed.

Lemma py_lt_q_num v q x :
  num_of v = Some q -> py_lt_q v x = Ok (negb (Qle_bool x q)).
Proof. destruct v; simpl; intros [= <-]; done. Qed.

(** [get_schedule_recommendations] reads four keys the insights never
    have, so the work hours, session length, break frequency and best
    days it recommends are always the built-in defaults. The completion
    rate it compares with 0.7 is a percentage, so the advice to break
    tasks down is given only for a rate below 0.7 percent; the advice on
    shorter sessions is given when sessions average more than 120
    minutes. *)
Theorem get_schedule_recommendations_defaults (self : scheduler) (insights : dict) :
  has_analytics self = true ->
  get_productivity_insights (db self) (user_id self) = Ok insights ->
  let recommendations := get_schedule_recommendations self in
  recommendations !! "optimal_work_hours"
    = Some (PList (PInt <$> default_productive_hours)) /\
  recommendations !! "recommended_session_length" = Some (PInt 45) /\
  recommendations !! "break_frequency" = Some (PStr "every_90_minutes") /\
  recommendations !! "best_days" = Some default_best_days /\
  exists tips rate session,
    recommendations !! "focus_tips" = Some (PList tips) /\
    insights !! "completion_rate" ≫= num_of = Some rate /\
    insights !! "average_session_length" ≫= num_of = Some session /\
    (breakdown_tip ∈ tips <-> (rate < 0.7)%Q) /\
    (shorter_sessions_tip ∈ tips <-> (120 < session)%Q).
Proof.
  intros Hana Hins recommendations.
  unfold recommendations, get_schedule_recommendations, scheduler_insights.
  rewrite Hana, Hins, bind_Ok.
  rewrite !(get_or_absent insights)
    by (apply (insights_key_absent _ _ _ _ Hins); simpl; intros H;
        repeat (destruct H as [H|H]; [discriminate H|]); done).
  destruct (insights_are_well_formed _ _ _ Hins)
    as ((s & Hs & [qs Hqs]) & (r & Hr & [qr Hqr]) & _).
  rewrite (get_or_present _ _ _ _ Hr), (get_or_present _ _ _ _ Hs).
  rewrite (py_lt_q_num _ _ _ Hqr), bind_Ok, (py_gt_num _ _ _ Hqs), bind_Ok.
  cbn [catch_all].
  split; [by rewrite !lookup_insert_ne, lookup_insert_eq by done|].
  split; [rewrite !lookup_insert_ne by done; by rewrite lookup_insert_eq|].
  split; [rewrite !lookup_insert_ne by done; by rewrite lookup_insert_eq|].
  split; [rewrite !lookup_insert_ne by done; by rewrite lookup_insert_eq|].
  eexists _, qr, qs. split; [by rewrite lookup_insert_eq|].
  split; [by rewrite Hr|]. split; [by rewrite Hs|].
  change (inject_Z 120) with 120%Q.
  destruct (Qle_bool 0.7 qr) eqn:Elow; [apply Qle_bool_iff in Elow
                                       |apply Qle_bool_false in Elow];
  (destruct (Qle_bool qs 120) eqn:Elong; [apply Qle_bool_iff in Elong
                                        |apply Qle_bool_false in Elong]);
  cbn [negb app]; split; split; intros H;
    try lra; try done;
    repeat (apply elem_of_cons in H as [H|H]; [discriminate H|]);
    try (by apply elem_of_nil in H);
    try (by left); try (right; by left).
Qed.

Lemma get_schedule_recommendations_defaults_witness :
  get_schedule_recommendations sample_scheduler !! "recommended_session_length"
    = Some (PInt 45).
Proof.
  pose proof (get_schedule_recommendations_defaults sample_scheduler _
                eq_refl eq_refl) as H.
  cbv zeta in H. apply H.
Defined.

(** ** Completion rate *)

(** [get_task_completion_rate] answers a number between 0 and 100
    whenever the count of completed tasks is not negative, also when the
    query fails or the user has no tasks. *)
Theorem get_task_completion_rate_range (d : database) (user : Z) :
  (forall completed total,
     completion_row d user = Ok (Some (completed, total)) -> 0 <= completed) ->
  exists q, num_of (get_task_completion_rate d user) = Some q /\
            (0 <= q <= 100)%Q.
Proof.
  intros Hc. unfold get_task_completion_rate.
  destruct (completion_row d user) as [[[c t]|]|e]; cbn.
  - destruct (Z.ltb_spec 0 t).
    + eexists. split; [reflexivity|]. specialize (Hc c t eq_refl).
      assert (0 <= inject_Z c / inject_Z t * 100)%Q.
      { apply Qmult_le_0_compat; [|done].
        apply Qle_shift_div_l; [change 0%Q with (inject_Z 0); by rewrite <- Zlt_Qlt|].
        rewrite Qmult_0_l. change 0%Q with (inject_Z 0). by rewrite <- Zle_Qle. }
      split.
      * apply Q.min_glb; [done|done].
      * apply Q.le_min_l.
    + exists 0%Q. split; [reflexivity|done].
  - exists 0%Q. split; [reflexivity|done].
  - exists 0%Q. split; [reflexivity|done].
Qed.

Lemma get_task_completion_rate_range_witness :
  exists q,
    num_of (get_task_completion_rate (sample_database [] PNone (1, 3)) 1)
      = Some q /\
    (0 <= q <= 100)%Q.
Proof.
  apply (get_task_completion_rate_range (sample_database [] PNone (1, 3)) 1).
  intros completed total H. cbn in H. injection H as <- _. lia.
Defined.

(** ** Reminders *)

Lemma elem_of_concat_map {A B} (f : A -> list B) (l : list A) (y : B) :
  y ∈ concat (map f l) <-> exists x, x ∈ l /\ y ∈ f x.
Proof.
  induction l as [|a l IH]; simpl.
  - split; [intros H; by apply elem_of_nil in H|intros (x & H & _); by apply elem_of_nil in H].
  - rewrite elem_of_app, IH. split.
    + intros [H|(x & Hx & Hy)]; [exists a|exists x]; split; try done;
        apply elem_of_cons; auto.
    + intros (x & Hx & Hy). apply elem_of_cons in Hx as [->|Hx]; [by left|right; eauto].
Qed.

Lemma length_concat_map_le {A B} (f : A -> list B) (l : list A) :
  (forall x, (length (f x) <= 1)%nat) ->
  (length (concat (map f l)) <= length l)%nat.
Proof.
  intros Hf. induction l as [|a l IH]; simpl; [lia|].
  rewrite length_app. specialize (Hf a). lia.
Qed.

(** [_check_overdue_tasks] sends one overdue notice per task that is
    exactly one day late, one severe notice per task whose days overdue
    are a multiple of three, and nothing else: at most one notification
    per overdue task. *)
Theorem check_overdue_tasks_rule (q : reminder_queries) (user : Z)
    (rows : list overdue_row) :
  overdue_rows q user = Ok rows ->
  let sent := check_overdue_tasks true q user in
  (forall name, TaskOverdue name ∈ sent <-> mk_overdue_row name 1 ∈ rows) /\
  (forall name days, TaskSeverelyOverdue name days ∈ sent <->
     mk_overdue_row name days ∈ rows /\ days <> 1 /\ days mod 3 = 0) /\
  (forall n, n ∈ sent ->
     (exists name, n = TaskOverdue name) \/
     (exists name days, n = TaskSeverelyOverdue name days)) /\
  (length sent <= length rows)%nat.
Proof.
  intros Hrows sent.
  assert (Hsent : sent = concat (map overdue_reminder rows)).
  { unfold sent, check_overdue_tasks, execute_query. by rewrite Hrows. }
  rewrite Hsent. clear sent Hsent.
  assert (Hbody : forall task n, n ∈ overdue_reminder task <->
     (days_overdue task = 1 /\ n = TaskOverdue (od_task_name task)) \/
     (days_overdue task <> 1 /\ days_overdue task mod 3 = 0 /\
      n = TaskSeverelyOverdue (od_task_name task) (days_overdue task))).
  { intros [name d] n. unfold overdue_reminder. cbn [days_overdue od_task_name].
    destruct (Z.eqb_spec d 1) as [->|Hne].
    - rewrite list_elem_of_singleton. split; [intros ->; by left|].
      intros [[_ ->]|[? _]]; done.
    - destruct (Z.eqb_spec (d mod 3) 0) as [Hm|Hm].
      + rewrite list_elem_of_singleton. split; [intros ->; by right|].
        intros [[? _]|(_ & _ & ->)]; done.
      + split; [intros H; by apply elem_of_nil in H|].
        intros [[? _]|(_ & ? & _)]; done. }
  split; [|split; [|split]].
  - intros name. rewrite elem_of_concat_map. split.
    + intros ([n d] & Hin & Hn). apply Hbody in Hn as [[Hd Hn]|(_ & _ & Hn)]; [|done].
      cbn in *. injection Hn as <-. by subst d.
    + intros Hin. exists (mk_overdue_row name 1). split; [done|].
      apply Hbody. by left.
  - intros name days. rewrite elem_of_concat_map. split.
    + intros ([n d] & Hin & Hn). apply Hbody in Hn as [[Hd Hn]|(Hd & Hm & Hn)]; [done|].
      cbn in *. injection Hn as <- <-. done.
    + intros (Hin & Hd & Hm). exists (mk_overdue_row name days). split; [done|].
      apply Hbody. right. done.
  - intros n Hn. apply elem_of_concat_map in Hn as (task & _ & Hn).
    apply Hbody in Hn as [[_ ->]|(_ & _ & ->)]; eauto.
  - apply length_concat_map_le. intros [n d]. unfold overdue_reminder.
    cbn. destruct (d =? 1); [simpl; lia|]. destruct (d mod 3 =? 0); simpl; lia.
Qed.

Lemma check_overdue_tasks_rule_witness :
  TaskOverdue "report" ∈ check_overdue_tasks true sample_reminders 1 <->
  mk_overdue_row "report" 1
    ∈ [mk_overdue_row "report" 1; mk_overdue_row "slides" 6;
       mk_overdue_row "budget" 2].
Proof.
  pose proof (check_overdue_tasks_rule sample_reminders 1 _ eq_refl) as H.
  cbv zeta in H. destruct H as [H _]. apply (H "report"%string).
Defined.

(** [_check_upcoming_deadlines] notifies for tasks due today, tomorrow
    and in three days, and for no other: a task due in two days gets no
    reminder although the query selects it. *)
Theorem check_upcoming_deadlines_rule (q : reminder_queries) (user : Z)
    (rows : list upcoming_row) :
  upcoming_rows q user = Ok rows ->
  let sent := check_upcoming_deadlines true q user in
  (forall name, DueToday name ∈ sent <-> mk_upcoming_row name 0 ∈ rows) /\
  (forall name, DueTomorrow name ∈ sent <-> mk_upcoming_row name 1 ∈ rows) /\
  (forall name, DueInThreeDays name ∈ sent <-> mk_upcoming_row name 3 ∈ rows) /\
  (forall n, n ∈ sent ->
     exists name, n = DueToday name \/ n = DueTomorrow name \/ n = DueInThreeDays name) /\
  ((forall task, task ∈ rows -> days_until_due task = 2) -> sent = []).
Proof.
  intros Hrows sent.
  assert (Hsent : sent = concat (map deadline_reminder rows)).
  { unfold sent, check_upcoming_deadlines, execute_query. by rewrite Hrows. }
  rewrite Hsent. clear sent Hsent.
  assert (Hbody : forall task n, n ∈ deadline_reminder task <->
     (days_until_due task = 0 /\ n = DueToday (up_task_name task)) \/
     (days_until_due task = 1 /\ n = DueTomorrow (up_task_name task)) \/
     (days_until_due task = 3 /\ n = DueInThreeDays (up_task_name task))).
  { intros [name d] n. unfold deadline_reminder. cbn [days_until_due up_task_name].
    destruct (Z.eqb_spec d 0) as [->|H0].
    { rewrite list_elem_of_singleton. split; [intros ->; by left|].
      intros [[_ ->]|[[? _]|[? _]]]; done. }
    destruct (Z.eqb_spec d 1) as [->|H1].
    { rewrite list_elem_of_singleton. split; [intros ->; right; by left|].
      intros [[? _]|[[_ ->]|[? _]]]; done. }
    destruct (Z.eqb_spec d 3) as [->|H3].
    { rewrite list_elem_of_singleton. split; [intros ->; right; by right|].
      intros [[? _]|[[? _]|[_ ->]]]; done. }
    split; [intros H; by apply elem_of_nil in H|].
    intros [[? _]|[[? _]|[? _]]]; done. }
  clear Hrows.
  assert (Hiff : forall name d n,
     (forall task, n ∈ deadline_reminder task ->
        days_until_due task = d /\ up_task_name task = name) ->
     n ∈ deadline_reminder (mk_upcoming_row name d) ->
     n ∈ concat (map deadline_reminder rows) <-> mk_upcoming_row name d ∈ rows).
  { intros name d n Honly Hhas. rewrite elem_of_concat_map. split.
    - intros ([nm dd] & Hin & Hn). apply Honly in Hn as [Hd Hnm]. cbn in *. by subst.
    - intros Hin. eauto. }
  split; [|split; [|split; [|split]]].
  - intros name. apply Hiff.
    + intros task Hn. apply Hbody in Hn as [[Hd Hn]|[[Hd Hn]|[Hd Hn]]]; try done.
      by injection Hn as <-.
    + apply Hbody. by left.
  - intros name. apply Hiff.
    + intros task Hn. apply Hbody in Hn as [[Hd Hn]|[[Hd Hn]|[Hd Hn]]]; try done.
      by injection Hn as <-.
    + apply Hbody. right. by left.
  - intros name. apply Hiff.
    + intros task Hn. apply Hbody in Hn as [[Hd Hn]|[[Hd Hn]|[Hd Hn]]]; try done.
      by injection Hn as <-.
    + apply Hbody. right. by right.
  - intros n Hn. apply elem_of_concat_map in Hn as (task & _ & Hn).
    apply Hbody in Hn as [[_ ->]|[[_ ->]|[_ ->]]]; eauto.
  - intros Hall. clear Hiff. induction rows as [|task rows IH]; [done|]. simpl.
    assert (Htwo : days_until_due task = 2) by (apply Hall; by left).
    unfold deadline_reminder at 1. rewrite Htwo. simpl. apply IH.
    intros t Ht. apply Hall. by right.
Qed.

Lemma check_upcoming_deadlines_rule_witness :
  DueInThreeDays "release" ∈ check_upcoming_deadlines true sample_reminders 1 <->
  mk_upcoming_row "release" 3
    ∈ [mk_upcoming_row "demo" 0; mk_upcoming_row "review" 2;
       mk_upcoming_row "release" 3].
Proof.
  pose proof (check_upcoming_deadlines_rule sample_reminders 1 _ eq_refl) as H.
  cbv zeta in H. destruct H as (_ & _ & H & _). apply (H "release"%string).
Defined.

Lemma execute_query_rows {A} (rows : A) :
  execute_query true (Ok rows) = Ok (Some rows).
Proof. reflexivity. Qed.

(** [_suggest_breaks] of the reminder loop: more than 240 minutes of
    recent work give the break notice, with the whole hours worked; more
    than 120 give the hydration notice; anything else gives nothing. *)
Theorem suggest_breaks_rule (q : reminder_queries) (user : Z)
    (total : pyval) (rest : list pyval) (minutes : Q) :
  work_time_rows q user = Ok (total :: rest) ->
  num_of total = Some minutes ->
  let sent := suggest_breaks true q user in
  ((240 < minutes)%Q -> exists hours, sent = [TimeForBreak hours] /\
      num_of hours = Some (inject_Z (Qfloor (minutes / 60)))) /\
  ((120 < minutes <= 240)%Q -> sent = [StayHydrated]) /\
  ((minutes <= 120)%Q -> sent = []).
Proof.
  intros Hrows Hnum sent. unfold sent, suggest_breaks.
  rewrite Hrows, execute_query_rows, bind_Ok.
  destruct (truthy total) eqn:Ht.
  - rewrite !(py_gt_num _ _ _ Hnum), !bind_Ok.
    change (inject_Z 240) with 240%Q. change (inject_Z 120) with 120%Q.
    destruct (Qle_bool minutes 240) eqn:E240; cbn [negb].
    + apply Qle_bool_iff in E240.
      destruct (Qle_bool minutes 120) eqn:E120; cbn [negb catch_all].
      * apply Qle_bool_iff in E120. repeat split; intros; try done; lra.
      * apply Qle_bool_false in E120. repeat split; intros; try done; lra.
    + apply Qle_bool_false in E240.
      assert (Hh : exists hours, py_floordiv60 total = Ok hours /\
                 num_of hours = Some (inject_Z (Qfloor (minutes / 60)))).
      { destruct total; simpl in *; try discriminate; injection Hnum as <-.
        - eexists. split; [reflexivity|]. simpl. do 2 f_equal.
          unfold Qfloor, Qdiv, Qmult, Qinv, inject_Z. simpl.
          by rewrite Z.mul_1_r.
        - eexists. split; reflexivity. }
      destruct Hh as (hours & -> & Hhours). cbn [catch_all mbind outcome_bind].
      repeat split; intros; try lra. eauto.
  - assert (Hzero : (minutes == 0)%Q).
    { destruct total; simpl in *; try discriminate; injection Hnum as <-.
      - apply negb_false_iff, Z.eqb_eq in Ht. by subst.
      - apply negb_false_iff in Ht. by apply Qeq_bool_iff in Ht. }
    cbn [catch_all]. repeat split; intros; try done; lra.
Qed.

Lemma suggest_breaks_rule_witness :
  exists hours,
    suggest_breaks true sample_reminders 1 = [TimeForBreak hours] /\
    num_of hours = Some (inject_Z (Qfloor (250 / 60))).
Proof.
  pose proof (suggest_breaks_rule sample_reminders 1 (PNum 250) [] 250
                eq_refl eq_refl) as H.
  cbv zeta in H. destruct H as [H _]. apply H. reflexivity.
Defined.

(** When the database cannot be reached, or MySQL refuses the three
    queries, one pass of the reminder loop sends nothing: the overdue and
    the deadline checks fail on iterating [None] and swallow the
    error. *)
Theorem reminder_tick_database_failure (connected : bool) (q : reminder_queries)
    (user : Z) :
  (connected = false \/
   (overdue_rows q user = Raise DbError /\ upcoming_rows q user = Raise DbError /\
    work_time_rows q user = Raise DbError)) ->
  reminder_tick connected q user = [].
Proof.
  unfold reminder_tick, check_overdue_tasks, check_upcoming_deadlines,
    suggest_breaks, execute_query.
  intros [->|(-> & -> & ->)]; [done|]. by destruct connected.
Qed.

Lemma reminder_tick_database_failure_witness :
  reminder_tick false sample_reminders 1 = [].
Proof.
  apply (reminder_tick_database_failure false sample_reminders 1).
  left. reflexivity.
Defined.

(** ** The time report *)





Lemma add_session_names log b :
  map fst (add_session log b) =
    if decide (tl_task_name log ∈ map fst b) then map fst b
    else map fst b ++ [tl_task_name log].
Proof.
  induction b as [|[name data] rest IH]; cbn [add_session].
  - done.
  - destruct (String.eqb_spec name (tl_task_name log)) as [Heq|Hne]; cbn [map fst].
    + rewrite decide_True; [done|]. rewrite <- Heq. by left.
    + rewrite IH. destruct (decide (tl_task_name log ∈ map fst rest)) as [Hin|Hnin].
      * rewrite decide_True; [done|by right].
      * rewrite decide_False; [done|].
        intros Hin. apply elem_of_cons in Hin as [Heq|Hin]; [by symmetry in Heq|done].
Qed.




Lemma group_from_names logs : forall b,
  NoDup (map fst b) ->
  let b' := fold_left (fun acc log => add_session log acc) logs b in
  NoDup (map fst b') /\
  forall name, name ∈ map fst b' <->
    name ∈ map fst b \/ name ∈ map tl_task_name logs.
Proof.
  induction logs as [|log logs IH]; intros b Hnd; cbn [fold_left].
  - split; [done|]. intros name. cbn. split; [by left|].
    intros [H|H]; [done|by apply elem_of_nil in H].
  - assert (Hnd' : NoDup (map fst (add_session log b))).
    { rewrite add_session_names. destruct (decide _) as [Hin|Hnin]; [done|].
      apply NoDup_app. split; [done|]. split; [|apply NoDup_singleton].
      intros x Hx Hx'. apply list_elem_of_singleton in Hx'. by subst. }
    destruct (IH _ Hnd') as [Hnd'' Hiff]. split; [done|].
    intros name. rewrite Hiff, add_session_names. cbn [map].
    rewrite elem_of_cons.
    destruct (decide (tl_task_name log ∈ map fst b)) as [Hin|Hnin].
    + split; [intros [H|H]; auto|]. intros [H|[->|H]]; auto.
    + rewrite elem_of_app, list_elem_of_singleton. tauto.
Qed.

Lemma catch_db_Ok {A} (a fallback : A) : catch_db (Ok a) fallback = Ok a.
Proof. reflexivity. Qed.

(** The report of the logs the query returns. *)
Lemma generate_time_report_rows (rows : Z -> string -> outcome (list time_log))
    (user : Z) (report_type : string) (time_logs : list time_log) :
  rows user report_type = Ok time_logs ->
  exists report,
    generate_time_report rows user report_type = Ok (Some report) /\
    ((time_logs = [] /\ report = mk_time_report 0 0 0 [] report_type) \/
     (time_logs <> [] /\
      report =
        {| tr_total_time := total_duration time_logs;
           tr_tasks_completed := completed_sessions time_logs;
           tr_average_duration :=
             (inject_Z (total_duration time_logs)
              / inject_Z (Z.of_nat (length time_logs)))%Q;
           tr_task_breakdown := group_by_task time_logs;
           tr_period := report_type |})).
Proof.
  intros Hrows. unfold generate_time_report. rewrite Hrows, bind_Ok.
  destruct time_logs as [|log logs]; cbv beta iota; rewrite catch_db_Ok;
    eexists; (split; [reflexivity|]); [by left|by right].
Qed.



(** The task breakdown of a report lists every task that has a log, and
    only those, each once. *)
Theorem generate_time_report_breakdown
    (rows : Z -> string -> outcome (list time_log))
    (user : Z) (report_type : string) (time_logs : list time_log) :
  rows user report_type = Ok time_logs ->
  exists report,
    generate_time_report rows user report_type = Ok (Some report) /\
    NoDup (map fst (tr_task_breakdown report)) /\
    (forall name, name ∈ map fst (tr_task_breakdown report) <->
       name ∈ map tl_task_name time_logs).
Proof.
  intros Hrows.
  destruct (generate_time_report_rows _ _ _ _ Hrows)
    as (report & Hreport & [[-> ->]|[Hne ->]]);
    eexists; (split; [exact Hreport|]).
  - split; [constructor|done].
  - cbn [tr_task_breakdown]. unfold group_by_task.
    destruct (group_from_names time_logs [] (NoDup_nil_2 (A:=string)))
      as [Hnd Hiff].
    split; [done|]. intros name. rewrite Hiff. cbn [map].
    split; [intros [H'|H']; [by apply elem_of_nil in H'|done]|by right].
Qed.

Lemma generate_time_report_breakdown_witness :
  exists report,
    generate_time_report sample_time_log_rows 1 "weekly" = Ok (Some report) /\
    NoDup (map fst (tr_task_breakdown report)) /\
    (forall name, name ∈ map fst (tr_task_breakdown report) <->
       name ∈ map tl_task_name sample_time_logs).
Proof.
  apply (generate_time_report_breakdown sample_time_log_rows 1 "weekly"
           sample_time_logs).
  reflexivity.
Defined.

(** ** The break menu of the command line *)

(** [show_break_suggestions] never gets to print a recommendation: it
    reads the key ["should_take_break"], which the dict of
    [suggest_break] does not have, and subscripts [None] when no break is
    due, so every call ends in an exception. *)
Theorem show_break_suggestions_raises (d : database) (user : Z) :
  exists e, show_break_suggestions d user = Raise e /\
    (suggest_break d user = Ok None -> e = TypeError) /\
    (forall s, suggest_break d user = Ok (Some s) ->
       e = KeyError "should_take_break").
Proof.
  unfold show_break_suggestions.
  destruct (suggest_break d user) as [[s|]|e].
  - rewrite bind_Ok. cbn [fmap option_fmap option_map subscript_optional].
    rewrite (subscript_None (break_suggestion_dict s) "should_take_break")
      by reflexivity.
    eexists. split; [reflexivity|]. split; [done|]. intros ? _. reflexivity.
  - eexists. split; [reflexivity|]. split; [done|]. intros ? [=].
  - eexists. split; [reflexivity|]. split; intros; done.
Qed.
